(** * pytket-service: the HTTP handlers of [app/routes.py]

    A shallow embedding of the three request handlers of the service
    ([transpile_circuit], [execute_circuit], [get_result]) and the
    properties of the compilation convergence loop and of the job/result
    lifecycle that follow from the code.

    Conventions of the embedding:
    - a Python call that may raise returns a [fallible]: [Ok v] or [Raise e];
    - a Flask view ends in an [outcome]: a response that was built and
      returned, an [abort(code)], or an exception nobody caught (which Flask
      answers with status 500);
    - calls to collaborators that live outside [routes.py] (the tket
      handler, the implementation handler, the logger) are recorded, in
      order, in a list of [event]s, so that "was never called" and "was
      called before" are statements about that list;
    - the result table and the job queue are explicit state. *)

From Stdlib Require Import ZArith String Ascii List Lia Bool.
From stdpp Require Import base option gmap strings list.
Import ListNotations.

Open Scope string_scope.
Open Scope list_scope.
Open Scope Z_scope.

Set Warnings "-register-all".

(** ** Python values, exceptions and HTTP outcomes *)

(** A JSON value as [request.json] and [jsonify] see it.  An object literal
    keeps the order in which the source writes its keys. *)
Inductive json : Type :=
  | JNull
  | JBool (b : bool)
  | JNum (n : Z)
  | JStr (s : string)
  | JArr (items : list json)
  | JObj (fields : list (string * json)).

(** The exceptions the handlers can meet.  [HTTPException code] is what
    [flask.abort(code)] raises; like the others it derives from Python's
    [Exception], so a bare [except Exception] catches it. *)
Inductive exn : Type :=
  | UnsupportedGateException (gate : string)
  | TooManyQubitsException
  | HTTPException (code : Z)
  | KeyError (key : string)
  | AttributeError (msg : string)
  | TypeError (msg : string)
  | IntegrityError (key : string)
  | OtherException (msg : string).

Inductive fallible (A : Type) : Type :=
  | Ok (v : A)
  | Raise (e : exn).
Arguments Ok {A} v.
Arguments Raise {A} e.

Record response : Type := mkResponse {
  status_code : Z;
  headers : list (string * string);
  body : json
}.

(** How a view function ends. *)
Inductive outcome : Type :=
  | Respond (r : response)
  | Abort (code : Z)
  | Unhandled (e : exn).

(** The status line the client sees: Flask turns [abort(code)] into a
    response with that code and an uncaught exception into a 500. *)
Definition http_status (o : outcome) : Z :=
  match o with
  | Respond r => status_code r
  | Abort code => code
  | Unhandled _ => 500
  end.

(** The JSON payload the view returned, if it returned one. *)
Definition returned_body (o : outcome) : option json :=
  match o with
  | Respond r => Some (body r)
  | _ => None
  end.

(** [return jsonify(obj), status] *)
Definition jsonify (obj : list (string * json)) (status : Z) : response :=
  {| status_code := status; headers := []; body := JObj obj |}.

(** Reading one key of a JSON object given as a list of fields. *)
Fixpoint field (key : string) (fields : list (string * json)) : option json :=
  match fields with
  | [] => None
  | (k, v) :: rest => if String.eqb k key then Some v else field key rest
  end.

(** ** [re.match(".*/(?P<file>.*\\.py)", impl_url)]

    The pattern is a sequence of items; the only repetition is a greedy
    [.*], which Python's [.] restricts to characters other than a newline.
    [re.match] anchors at the start of the string and not at its end. *)
Module Re.

Inductive item : Type :=
  | Chr (c : ascii)
  | DotStar
  | GroupOpen
  | GroupClose.

Definition newline : ascii := "010"%char.

Definition is_newline (c : ascii) : bool := Ascii.eqb c newline.

(** Backtracking matcher.  [ing] tells whether the named group is open,
    [acc] holds the characters captured so far, last one first.  A greedy
    [.*] first tries to take one more character and falls back to the rest
    of the pattern. *)
Fixpoint run (p : list item) (s : list ascii) (ing : bool) (acc : list ascii)
  : option (list ascii) :=
  match p with
  | [] => Some (rev acc)
  | Chr c :: p' =>
      match s with
      | x :: s' =>
          if Ascii.eqb x c then run p' s' ing (if ing then x :: acc else acc)
          else None
      | [] => None
      end
  | GroupOpen :: p' => run p' s true acc
  | GroupClose :: p' => run p' s false acc
  | DotStar :: p' =>
      (fix star (s : list ascii) (acc : list ascii) : option (list ascii) :=
         match s with
         | x :: s' =>
             if is_newline x then run p' s ing acc
             else match star s' (if ing then x :: acc else acc) with
                  | Some r => Some r
                  | None => run p' s ing acc
                  end
         | [] => run p' s ing acc
         end) s acc
  end.

(** [.*/(?P<file>.*\.py)] *)
Definition short_name_pattern : list item :=
  [DotStar; Chr "/"; GroupOpen; DotStar; Chr "."; Chr "p"; Chr "y"; GroupClose].

(** [re.match(pattern, s)]: [None] when there is no match, otherwise the
    text of the group [file]. *)
Definition rmatch (p : list item) (s : string) : option string :=
  match run p (list_ascii_of_string s) false [] with
  | Some g => Some (string_of_list_ascii g)
  | None => None
  end.

End Re.

(** ** [POST /pytket-service/api/v1.0/transpile] *)

(** [request.json] when it is [None] (the request carries no JSON body) or
    a Python [dict] (the body is a JSON object).  Bodies of the other JSON
    types are taken in by [request_guard], [transpile_request] and
    [execute_request] below, which hand the [dict]s to the views defined on
    this type. *)
Abbreviation request_json := (option (gmap string json)).

(** [key in request.json] *)
Definition has_key (key : string) (js : gmap string json) : bool :=
  match js !! key with
  | Some _ => true
  | None => false
  end.

(** [not request.json] on a dict: an empty dict is falsy. *)
Definition is_empty_dict (js : gmap string json) : bool :=
  bool_decide (size js = 0%nat).

(** The guard both POST handlers start with, on [None] and on a [dict]:
    [if not request.json or not 'impl-url' in request.json
        or not 'qpu-name' in request.json: abort(400)]
    ([request_guard] is the same test on any JSON value). *)
Definition bad_request (rq : request_json) : bool :=
  match rq with
  | None => true
  | Some js =>
      is_empty_dict js || negb (has_key "impl-url" js) || negb (has_key "qpu-name" js)
  end.

(** [request.json.get(key, default)] *)
Definition get_default (key : string) (default : json) (js : gmap string json) : json :=
  match js !! key with
  | Some v => v
  | None => default
  end.

(** [re.match(...)] on the value of [impl-url], then [.group('file')].
    A value that is not a string makes [re.match] raise [TypeError]; no
    match makes it return [None], and [None.group] raises
    [AttributeError]. *)
Definition short_name_of (impl_url : json) : fallible string :=
  match impl_url with
  | JStr u =>
      match Re.rmatch Re.short_name_pattern u with
      | Some name => Ok name
      | None => Raise (AttributeError "'NoneType' object has no attribute 'group'")
      end
  | _ => Raise (TypeError "expected string or bytes-like object")
  end.

Inductive log_level : Type := INFO | WARN.

(** One constructor per logging call of [transpile_circuit], carrying the
    values its f-string interpolates. *)
Inductive log_msg : Type :=
  | ImplNotFound (short_impl_name : string)
  | TranspileError (short_impl_name : string) (qpu_name : json) (msg : string)
  | BackendNotFound (qpu_name : json)
  | UnsupportedGate (gate : string) (short_impl_name : string)
  | PrecompilingFailed (short_impl_name : string)
  | TooManyQubits (short_impl_name : string) (qpu_name : json)
  | CompilationFailed (short_impl_name : string)
  | Transpiled (short_impl_name : string) (qpu_name : json) (width depth : Z).

(** Calls that leave [routes.py], in program order.  A lowering attempt is
    recorded with its two varying arguments and with what the call
    returned or raised. *)
Inductive event (Circuit Params : Type) : Type :=
  | SetupCredentials (sdk : json) (params : Params)
  | PrepareCodeFromUrl (impl_url : json) (params : Params)
  | GetBackend (provider qpu_name : json)
  | TketTranspile (circuit : Circuit) (precompile_circuit : bool)
      (returned : fallible Circuit)
  | Log (level : log_level) (msg : log_msg).
Arguments SetupCredentials {Circuit Params} sdk params.
Arguments PrepareCodeFromUrl {Circuit Params} impl_url params.
Arguments GetBackend {Circuit Params} provider qpu_name.
Arguments TketTranspile {Circuit Params} circuit precompile_circuit returned.
Arguments Log {Circuit Params} level msg.

(** How control leaves the [while] loop: its condition became false, the
    [break] of the precompile branch ran, or the view itself ended inside
    the loop ([return] or [abort]). *)
Inductive loop_exit (Circuit : Type) : Type :=
  | Converged (circuit : Circuit)
  | Broke (circuit : Circuit)
  | Ended (o : outcome).
Arguments Converged {Circuit} circuit.
Arguments Broke {Circuit} circuit.
Arguments Ended {Circuit} o.

(** The lowering attempts among the events, in order: the circuit each
    one received and the value of the precompile flag it ran with. *)
Fixpoint attempts {Circuit Params : Type} (evs : list (event Circuit Params))
  : list (Circuit * bool) :=
  match evs with
  | [] => []
  | TketTranspile c p _ :: rest => (c, p) :: attempts rest
  | _ :: rest => attempts rest
  end.

(** The escalations among the attempts: an attempt without precompilation
    directly followed by one with it. *)
Fixpoint escalations {Circuit : Type} (l : list (Circuit * bool)) : nat :=
  match l with
  | [] => O
  | (_, p) :: rest =>
      match rest with
      | (_, true) :: _ => if p then escalations rest else S (escalations rest)
      | _ => escalations rest
      end
  end.

(** The unsupported-gate failures among the events. *)
Fixpoint unsupported_failures {Circuit Params : Type} (evs : list (event Circuit Params))
  : nat :=
  match evs with
  | [] => O
  | TketTranspile _ _ (Raise (UnsupportedGateException _)) :: rest =>
      S (unsupported_failures rest)
  | _ :: rest => unsupported_failures rest
  end.

(** The collaborators imported from [app.tket_handler],
    [app.implementation_handler] and [app.parameters], the circuit
    attributes the view reads, [str] on exceptions and [json.loads].  None
    of them is defined in [routes.py]; the views are verified for every
    implementation of this interface. *)
Class Collaborators : Type := {
  Circuit : Type;
  Backend : Type;
  Params : Type;
  ParameterDictionary : json -> Params;
  prepare_code_from_url : json -> Params -> fallible (option Circuit);
  get_backend : json -> json -> option Backend;
  is_tk_circuit : Circuit -> bool;
  tket_transpile_circuit :
    Circuit -> json -> Backend -> string -> bool -> fallible Circuit;
  valid_circuit : Backend -> Circuit -> bool;
  n_qubits : Circuit -> Z;
  depth : Circuit -> Z;
  exn_str : exn -> string;
  json_loads : string -> fallible json
}.

Section Transpile.

Context `{Env : Collaborators}.

Local Abbreviation event := (event Circuit Params).
Local Abbreviation loop_exit := (loop_exit Circuit).

Definition too_many_qubits_response : response :=
  jsonify [("error", JStr "too many qubits required")] 200.

Section Loop.

Variables (sdk qpu_name : json) (backend : Backend) (short_impl_name : string).

(** The [while not is_tk_circuit(circuit)] loop, lines 69-100.  The
    state of the loop is the pair of the local variables [circuit] and
    [precompiled_circuit].  [fuel] bounds the number of times the
    condition is evaluated; [None] means the bound was reached. *)
Fixpoint convergence_loop (fuel : nat) (circuit : Circuit) (precompiled_circuit : bool)
  : list event * option loop_exit :=
  match fuel with
  | O => ([], None)
  | S fuel' =>
      if is_tk_circuit circuit then ([], Some (Converged circuit))
      else
        let returned :=
          tket_transpile_circuit circuit sdk backend short_impl_name
            precompiled_circuit in
        let call := TketTranspile circuit precompiled_circuit returned in
        match returned with
        | Ok circuit' =>
            let (evs, ex) := convergence_loop fuel' circuit' precompiled_circuit in
            (call :: evs, ex)
        | Raise (UnsupportedGateException gate) =>
            let warn := Log WARN (UnsupportedGate gate short_impl_name) in
            if negb precompiled_circuit then
              let (evs, ex) := convergence_loop fuel' circuit true in
              (call :: warn :: evs, ex)
            else
              ([call; warn; Log WARN (PrecompilingFailed short_impl_name)],
               Some (Broke circuit))
        | Raise TooManyQubitsException =>
            ([call; Log INFO (TooManyQubits short_impl_name qpu_name)],
             Some (Ended (Respond too_many_qubits_response)))
        | Raise _ =>
            ([call; Log WARN (CompilationFailed short_impl_name)],
             Some (Ended (Abort 500)))
        end
  end.

(** Lines 102-112: the validity guard and the metrics. *)
Definition after_loop (ex : loop_exit) : list event * outcome :=
  match ex with
  | Ended o => ([], o)
  | Converged circuit | Broke circuit =>
      if valid_circuit backend circuit then
        let width := n_qubits circuit in
        let depth := depth circuit in
        ([Log INFO (Transpiled short_impl_name qpu_name width depth)],
         Respond (jsonify [("depth", JNum depth); ("width", JNum width)] 200))
      else
        ([Log WARN (CompilationFailed short_impl_name)], Abort 500)
  end.

(** Lines 69-112 for a loaded circuit and a resolved backend. *)
Definition compile_and_report (fuel : nat) (circuit : Circuit)
  : list event * option outcome :=
  match convergence_loop fuel circuit false with
  | (evs, Some ex) => let (evs', o) := after_loop ex in (evs ++ evs', Some o)
  | (evs, None) => (evs, None)
  end.

End Loop.

(** Lines 51-60: the [try] around the implementation loader.  The
    [abort(404)] of the falsy-circuit branch sits inside the [try], and
    the handler is [except Exception]. *)
Definition load_implementation (short_impl_name : string) (impl_url qpu_name : json)
    (input_params : Params) : list event * fallible Circuit :=
  let call := PrepareCodeFromUrl impl_url input_params in
  let handler (pre : list event) (e : exn) : list event * fallible Circuit :=
    (pre ++ [Log INFO (TranspileError short_impl_name qpu_name (exn_str e))],
     Raise e) in
  match prepare_code_from_url impl_url input_params with
  | Ok (Some circuit) => ([call], Ok circuit)
  | Ok None =>
      handler [call; Log WARN (ImplNotFound short_impl_name)] (HTTPException 404)
  | Raise e => handler [call] e
  end.

(** The whole view, lines 32-112. *)
Definition transpile_circuit (fuel : nat) (rq : request_json)
  : list event * option outcome :=
  match rq with
  | None => ([], Some (Abort 400))
  | Some js =>
    if bad_request rq then ([], Some (Abort 400)) else
    match js !! "impl-url", js !! "provider", js !! "sdk", js !! "qpu-name" with
    | None, _, _, _ => ([], Some (Unhandled (KeyError "impl-url")))
    | _, None, _, _ => ([], Some (Unhandled (KeyError "provider")))
    | _, _, None, _ => ([], Some (Unhandled (KeyError "sdk")))
    | _, _, _, None => ([], Some (Unhandled (KeyError "qpu-name")))
    | Some impl_url, Some provider, Some sdk, Some qpu_name =>
      let input_params := ParameterDictionary (get_default "input-params" (JStr EmptyString) js) in
      match short_name_of impl_url with
      | Raise e => ([], Some (Unhandled e))
      | Ok short_impl_name =>
        let ev0 := [SetupCredentials sdk input_params] in
        match load_implementation short_impl_name impl_url qpu_name input_params with
        | (ev1, Raise e) =>
            (ev0 ++ ev1, Some (Respond (jsonify [("error", JStr (exn_str e))] 200)))
        | (ev1, Ok circuit) =>
          let ev2 := [GetBackend provider qpu_name] in
          match get_backend provider qpu_name with
          | None =>
              (ev0 ++ ev1 ++ ev2 ++ [Log WARN (BackendNotFound qpu_name)],
               Some (Abort 404))
          | Some backend =>
              let (ev3, o) :=
                compile_and_report sdk qpu_name backend short_impl_name fuel circuit in
              (ev0 ++ ev1 ++ ev2 ++ ev3, o)
          end
        end
      end
    end
  end.

(** A request that gets as far as the loop: its four fields are there,
    the short name is found, the loader hands back [circuit] and the
    backend is resolved. *)
Definition reaches_loop (js : gmap string json) (impl_url provider sdk qpu_name : json)
    (short_impl_name : string) (circuit : Circuit) (backend : Backend) : Prop :=
  js !! "impl-url" = Some impl_url /\
  js !! "provider" = Some provider /\
  js !! "sdk" = Some sdk /\
  js !! "qpu-name" = Some qpu_name /\
  short_name_of impl_url = Ok short_impl_name /\
  prepare_code_from_url impl_url
    (ParameterDictionary (get_default "input-params" (JStr EmptyString) js)) = Ok (Some circuit) /\
  get_backend provider qpu_name = Some backend.

(** The events of lines 49-63 for such a request. *)
Definition prelude_events (js : gmap string json) (impl_url provider sdk qpu_name : json)
  : list event :=
  let input_params := ParameterDictionary (get_default "input-params" (JStr EmptyString) js) in
  [SetupCredentials sdk input_params;
   PrepareCodeFromUrl impl_url input_params;
   GetBackend provider qpu_name].

End Transpile.

(** ** The result table and the job queue *)

Module ResultModel.

(** Modelled from the spec: the [Result] model of [app/result_model.py],
    which is not among the sources.  Spec, section 3: "persistent record
    keyed by job id; fields: id (string, primary key), complete (boolean,
    default false), result (serialized payload, nullable until
    complete)". *)
Record Result : Type := mkResult {
  id : string;
  complete : bool;
  result : option string
}.

(** [Result(id=...)]: the other columns take their defaults. *)
Definition new (id : string) : Result :=
  {| id := id; complete := false; result := None |}.

End ResultModel.

Section Jobs.

Context `{Env : Collaborators}.

(** What [enqueue] stores: the task name and its keyword arguments, under
    the id the queue generated for the job. *)
Record job : Type := mkJob {
  job_id : string;
  func : string;
  impl_url : json;
  qpu_name : json;
  input_params : Params;
  shots : json;
  provider : json;
  sdk : json
}.

(** The state the views share: [app.execute_queue], the table behind
    [Result.query] and [db.session], and the records written through
    [logging]. *)
Record service : Type := mkService {
  execute_queue : list job;
  results : gmap string ResultModel.Result;
  log : list string
}.

(** [app.execute_queue.enqueue(...)]: the queue draws the id of the new
    job; [new_id] is the id it drew. *)
Definition enqueue (new_id : string) (j : string -> job) (st : service)
  : service * job :=
  let jb := j new_id in
  ({| execute_queue := execute_queue st ++ [jb];
      results := results st;
      log := log st |}, jb).

(** [db.session.add(result); db.session.commit()]: [id] is the primary
    key, so a second row with the same id is refused. *)
Definition add_and_commit (r : ResultModel.Result) (st : service) : fallible service :=
  match results st !! ResultModel.id r with
  | Some _ => Raise (IntegrityError (ResultModel.id r))
  | None =>
      Ok {| execute_queue := execute_queue st;
            results := <[ResultModel.id r := r]> (results st);
            log := log st |}
  end.

Definition logging_info (msg : string) (st : service) : service :=
  {| execute_queue := execute_queue st;
     results := results st;
     log := log st ++ [msg] |}.

Definition results_prefix : string := "/pytket-service/api/v1.0/results/".

(** [POST /pytket-service/api/v1.0/execute], lines 115-139. *)
Definition execute_circuit (new_id : string) (rq : request_json) (st : service)
  : service * outcome :=
  match rq with
  | None => (st, Abort 400)
  | Some js =>
    if bad_request rq then (st, Abort 400) else
    match js !! "impl-url", js !! "provider", js !! "sdk", js !! "qpu-name" with
    | None, _, _, _ => (st, Unhandled (KeyError "impl-url"))
    | _, None, _, _ => (st, Unhandled (KeyError "provider"))
    | _, _, None, _ => (st, Unhandled (KeyError "sdk"))
    | _, _, _, None => (st, Unhandled (KeyError "qpu-name"))
    | Some impl_url, Some provider, Some sdk, Some qpu_name =>
      let input_params := ParameterDictionary (get_default "input-params" (JStr EmptyString) js) in
      let shots := get_default "shots" (JNum 1024) js in
      let (st1, jb) :=
        enqueue new_id
          (fun i => mkJob i "app.tasks.execute" impl_url qpu_name input_params
                      shots provider sdk) st in
      let result := ResultModel.new (job_id jb) in
      match add_and_commit result st1 with
      | Raise e => (st1, Unhandled e)
      | Ok st2 =>
          let st3 := logging_info "Returning HTTP response to client..." st2 in
          let content_location := results_prefix +:+ ResultModel.id result in
          (st3,
           Respond {| status_code := 202;
                      headers := [("Location", content_location)];
                      body := JObj [("Location", JStr content_location)] |})
      end
    end
  end.

(** [GET /pytket-service/api/v1.0/results/<result_id>], lines 142-150.
    [Result.query.get] returns [None] for an id without a row, and
    [None.complete] raises [AttributeError]; [json.loads(None)] raises
    [TypeError]. *)
Definition get_result (result_id : string) (st : service) : service * outcome :=
  match results st !! result_id with
  | None =>
      (st, Unhandled (AttributeError "'NoneType' object has no attribute 'complete'"))
  | Some result =>
      if ResultModel.complete result then
        match ResultModel.result result with
        | None =>
            (st, Unhandled (TypeError "the JSON object must be str, bytes or bytearray, not NoneType"))
        | Some payload =>
            match json_loads payload with
            | Raise e => (st, Unhandled e)
            | Ok result_dict =>
                (st, Respond (jsonify [("id", JStr (ResultModel.id result));
                                       ("complete", JBool (ResultModel.complete result));
                                       ("result", result_dict)] 200))
            end
        end
      else
        (st, Respond (jsonify [("id", JStr (ResultModel.id result));
                               ("complete", JBool (ResultModel.complete result))] 200))
  end.

(** [n] polls of the same id, one after the other, each on the state the
    previous one left. *)
Fixpoint polls (n : nat) (result_id : string) (st : service) : service * list outcome :=
  match n with
  | O => (st, [])
  | S n' =>
      let (st1, o) := get_result result_id st in
      let (st2, os) := polls n' result_id st1 in
      (st2, o :: os)
  end.

(** [GET /pytket-service/api/v1.0/version] *)
Definition version : outcome :=
  Respond {| status_code := 200; headers := []; body := JObj [("version", JStr "1.0")] |}.

End Jobs.

(** ** Declarative reading of the short-name pattern *)

(** What the matcher decides, read off the pattern: a character matches
    itself, [.*] takes any run of characters that holds no newline, and the
    group marks consume nothing.  Whatever follows the match is free. *)
Fixpoint matches (p : list Re.item) (s : list ascii) : Prop :=
  match p with
  | [] => True
  | Re.Chr c :: p' => exists r, s = c :: r /\ matches p' r
  | Re.DotStar :: p' =>
      exists a r, s = a ++ r /\ Forall (fun x => Re.is_newline x = false) a /\ matches p' r
  | Re.GroupOpen :: p' => matches p' s
  | Re.GroupClose :: p' => matches p' s
  end.

(** A string in which some ['/'] is later followed by [".py"], with no
    newline before that [".py"]. *)
Definition slash_then_dot_py (u : string) : Prop :=
  exists a b r : list ascii,
    list_ascii_of_string u = a ++ "/"%char :: b ++ "."%char :: "p"%char :: "y"%char :: r
    /\ Forall (fun x => Re.is_newline x = false) a
    /\ Forall (fun x => Re.is_newline x = false) b.


(** The reading "the escalated attempt is made on the circuit the loader
    returned", as a property of a run that starts from [original]. *)
Definition retries_from_original `{Env : Collaborators} (sdk qpu_name : json)
    (backend : Backend) (short_impl_name : string) (fuel : nat) (original : Circuit) : Prop :=
  forall l1 c1 c2 l2,
    attempts (convergence_loop sdk qpu_name backend short_impl_name fuel original false).1
    = l1 ++ (c1, false) :: (c2, true) :: l2 ->
    c2 = original.

(** The wording "a '/'-separated segment ending in '.py'", as a test on the
    string: cut it at every ['/'] and look for a piece whose last three
    characters are [".py"]. *)
Fixpoint segments (s : list ascii) (cur : list ascii) : list (list ascii) :=
  match s with
  | [] => [rev cur]
  | x :: s' =>
      if Ascii.eqb x "/" then rev cur :: segments s' []
      else segments s' (x :: cur)
  end.

Definition ends_in_dot_py (seg : list ascii) : bool :=
  match rev seg with
  | y :: p :: d :: _ => Ascii.eqb y "y" && Ascii.eqb p "p" && Ascii.eqb d "."
  | _ => false
  end.

Definition has_py_segment (u : string) : bool :=
  existsb ends_in_dot_py (segments (list_ascii_of_string u) []).

(** ** Stand-ins for the collaborators

    Small implementations of the interface, on which the views can be run:
    circuits are numbers, there is one backend, and the behaviour of the
    loader, the resolver and the lowering step is given as a table. *)
Module Stub.

Definition str (e : exn) : string :=
  match e with
  | UnsupportedGateException g => "unsupported gate " +:+ g
  | TooManyQubitsException => "too many qubits"
  | HTTPException 404 => "404 Not Found"
  | HTTPException _ => "HTTP error"
  | KeyError k => k
  | AttributeError m | TypeError m | OtherException m => m
  | IntegrityError k => "UNIQUE constraint failed: " +:+ k
  end.

Definition loads (s : string) : fallible json :=
  if String.eqb s "{}" then Ok (JObj [])
  else if String.eqb s "[1]" then Ok (JArr [JNum 1])
  else Raise (OtherException "JSONDecodeError").

Definition env (load : fallible (option nat)) (resolve : option unit)
    (tk : nat -> bool) (lower : nat -> bool -> fallible nat) (valid : nat -> bool)
  : Collaborators :=
  {| Circuit := nat;
     Backend := unit;
     Params := json;
     ParameterDictionary := fun j => j;
     prepare_code_from_url := fun _ _ => load;
     get_backend := fun _ _ => resolve;
     is_tk_circuit := tk;
     tket_transpile_circuit := fun c _ _ _ p => lower c p;
     valid_circuit := fun _ c => valid c;
     n_qubits := fun _ => 1;
     depth := fun c => Z.of_nat c;
     exn_str := str;
     json_loads := loads |}.

(** Circuit [n] is in tket form from [n = 2] on. *)
Definition tk_from_2 (c : nat) : bool := Nat.leb 2 c.

(** Lowering always succeeds and advances by one. *)
Definition lower_ok (c : nat) (p : bool) : fallible nat := Ok (S c).

(** Every attempt meets an unsupported gate. *)
Definition lower_unsupported (c : nat) (p : bool) : fallible nat :=
  Raise (UnsupportedGateException "cu1").

(** The first pass lowers circuit 0 to circuit 1; circuit 1 holds a gate
    that only the precompiled attempt gets through. *)
Definition lower_partial_then_unsupported (c : nat) (p : bool) : fallible nat :=
  match c, p with
  | O, _ => Ok 1%nat
  | S O, false => Raise (UnsupportedGateException "cu1")
  | _, _ => Ok 2%nat
  end.

(** The backend is too small. *)
Definition lower_too_many_qubits (c : nat) (p : bool) : fallible nat :=
  Raise TooManyQubitsException.

(** Loader and resolver succeed, two plain passes reach tket form. *)
Definition env_ok : Collaborators :=
  env (Ok (Some 0%nat)) (Some tt) tk_from_2 lower_ok (fun _ => true).

(** Every attempt meets an unsupported gate and the guard rejects. *)
Definition env_unsupported : Collaborators :=
  env (Ok (Some 0%nat)) (Some tt) tk_from_2 lower_unsupported (fun _ => false).

(** A partial first pass, then an unsupported gate. *)
Definition env_partial : Collaborators :=
  env (Ok (Some 0%nat)) (Some tt) tk_from_2 lower_partial_then_unsupported
    (fun _ => true).

(** The backend has too few qubits. *)
Definition env_too_many_qubits : Collaborators :=
  env (Ok (Some 0%nat)) (Some tt) tk_from_2 lower_too_many_qubits (fun _ => true).

(** The loop converges and the backend still rejects the circuit. *)
Definition env_invalid : Collaborators :=
  env (Ok (Some 0%nat)) (Some tt) tk_from_2 lower_ok (fun _ => false).

(** The loader raises. *)
Definition env_loader_raises : Collaborators :=
  env (Raise (OtherException "connection refused")) (Some tt) tk_from_2 lower_ok
    (fun _ => true).

(** The loader returns no circuit. *)
Definition env_no_circuit : Collaborators :=
  env (Ok None) (Some tt) tk_from_2 lower_ok (fun _ => true).

(** The resolver knows no such backend. *)
Definition env_no_backend : Collaborators :=
  env (Ok (Some 0%nat)) None tk_from_2 lower_ok (fun _ => true).

Definition url_hadamard : string :=
  "https://raw.githubusercontent.com/PlanQK/qiskit-service/master/test/data/hadamard.py".

(** A request with the four fields the view reads. *)
Definition request (impl_url : string) : gmap string json :=
  <["impl-url" := JStr impl_url]>
    (<["provider" := JStr "ibmq"]>
      (<["sdk" := JStr "qiskit"]>
        (<["qpu-name" := JStr "ibmq_qasm_simulator"]> ∅))).

(** The same request without [provider]. *)
Definition request_no_provider : gmap string json :=
  <["impl-url" := JStr url_hadamard]>
    (<["sdk" := JStr "qiskit"]>
      (<["qpu-name" := JStr "ibmq_qasm_simulator"]> ∅)).

(** A request that names its implementation through [impl-data], as the
    file-based tests of [test_transpile.py] send it, with [sdk] added. *)
Definition request_impl_data : gmap string json :=
  <["impl-data" := JStr "cHJpbnQoMSk="]>
    (<["impl-language" := JStr "Qiskit"]>
      (<["provider" := JStr "ibmq"]>
        (<["sdk" := JStr "qiskit"]>
          (<["qpu-name" := JStr "ibmq_qasm_simulator"]> ∅)))).

Definition empty_service `{Env : Collaborators} : service :=
  {| execute_queue := []; results := ∅; log := [] |}.

(** The two rows [test_results.py] creates, with a payload the stand-in
    for [json.loads] reads. *)
Definition dummy_service `{Env : Collaborators} : service :=
  {| execute_queue := [];
     results := <["0" := ResultModel.new "0"]>
                  (<["1" := ResultModel.mkResult "1" true (Some "[1]")]> ∅);
     log := [] |}.

End Stub.


(** ** Further stand-ins *)
Module Cases.

(** Without precompilation the gate is not supported; with it the circuit
    comes out in tket form. *)
Definition lower_needs_precompile (c : nat) (p : bool) : fallible nat :=
  if p then Ok 2%nat else Raise (UnsupportedGateException "cu1").

(** Lowering succeeds and hands back the circuit it was given. *)
Definition lower_no_progress (c : nat) (p : bool) : fallible nat := Ok c.

(** The lowering step fails for a reason of its own. *)
Definition lower_crashes (c : nat) (p : bool) : fallible nat :=
  Raise (OtherException "timeout").

Definition env_recovers : Collaborators :=
  Stub.env (Ok (Some 0%nat)) (Some tt) Stub.tk_from_2 lower_needs_precompile (fun _ => true).

Definition env_no_progress : Collaborators :=
  Stub.env (Ok (Some 0%nat)) (Some tt) Stub.tk_from_2 lower_no_progress (fun _ => true).

Definition env_crashes : Collaborators :=
  Stub.env (Ok (Some 0%nat)) (Some tt) Stub.tk_from_2 lower_crashes (fun _ => true).

(** The loader hands back a circuit that is in tket form already. *)
Definition env_native : Collaborators :=
  Stub.env (Ok (Some 2%nat)) (Some tt) Stub.tk_from_2 Stub.lower_ok (fun _ => true).

(** With precompilation every pass succeeds and advances by one; without
    it the gate is not supported. *)
Definition lower_precompiled_stepwise (c : nat) (p : bool) : fallible nat :=
  if p then Ok (S c) else Raise (UnsupportedGateException "cu1").

Definition env_precompiled_stepwise : Collaborators :=
  Stub.env (Ok (Some 0%nat)) (Some tt) Stub.tk_from_2 lower_precompiled_stepwise
    (fun _ => true).

(** Every attempt meets an unsupported gate, and the backend's validity
    predicate accepts the circuit all the same. *)
Definition env_unsupported_accepted : Collaborators :=
  Stub.env (Ok (Some 0%nat)) (Some tt) Stub.tk_from_2 Stub.lower_unsupported
    (fun _ => true).

(** The body of a file-based request, as the tests of [test_transpile.py]
    post it to both views, with [sdk] added. *)
Definition body_impl_data : json :=
  JObj [("impl-data", JStr "cHJpbnQoMSk=");
        ("impl-language", JStr "Qiskit");
        ("qpu-name", JStr "ibmq_qasm_simulator");
        ("provider", JStr "ibmq");
        ("sdk", JStr "qiskit")].

(** A URL-based body without [provider]. *)
Definition body_no_provider : json :=
  JObj [("impl-url", JStr Stub.url_hadamard);
        ("qpu-name", JStr "ibmq_qasm_simulator");
        ("sdk", JStr "qiskit")].

(** A URL-based body with the four fields. *)
Definition body_hadamard : json :=
  JObj [("impl-url", JStr Stub.url_hadamard);
        ("qpu-name", JStr "ibmq_qasm_simulator");
        ("provider", JStr "ibmq");
        ("sdk", JStr "qiskit")].

End Cases.

(** The attempts that ran with the precompile flag set. *)
Fixpoint precompiled_attempts {Circuit : Type} (l : list (Circuit * bool)) : nat :=
  match l with
  | [] => O
  | (_, true) :: rest => S (precompiled_attempts rest)
  | (_, false) :: rest => precompiled_attempts rest
  end.

(** ** Request bodies of any JSON type

    [request.json] is whatever the body parses to.  The guard and the first
    subscript of the two POST views are written for a [dict]; on the other
    JSON types Python's [not], [in] and [[...]] behave as below. *)

(** A JSON object as the [dict] it parses to: of two fields with the same
    name the later one stays. *)
Definition body_dict (fields : list (string * json)) : gmap string json :=
  list_to_map (rev fields).

(** [sub in s] on strings. *)
Fixpoint contains (sub s : string) : bool :=
  if String.prefix sub s then true
  else match s with
       | EmptyString => false
       | String _ s' => contains sub s'
       end.

Definition is_str (key : string) (v : json) : bool :=
  match v with
  | JStr s => String.eqb s key
  | _ => false
  end.

(** Truth value of a parsed body: [None], [False], [0], the empty string,
    the empty list and the empty dict are falsy. *)
Definition truthy (v : json) : bool :=
  match v with
  | JNull => false
  | JBool b => b
  | JNum n => negb (Z.eqb n 0)
  | JStr s => negb (String.eqb s EmptyString)
  | JArr items => match items with [] => false | _ => true end
  | JObj fields => negb (is_empty_dict (body_dict fields))
  end.

(** [key in v]: a key test on a dict, a substring test on a string, a
    membership test on a list; booleans and numbers are not iterable. *)
Definition py_in (key : string) (v : json) : fallible bool :=
  match v with
  | JObj fields => Ok (has_key key (body_dict fields))
  | JStr s => Ok (contains key s)
  | JArr items => Ok (existsb (is_str key) items)
  | JBool _ => Raise (TypeError "argument of type 'bool' is not iterable")
  | JNum _ => Raise (TypeError "argument of type 'int' is not iterable")
  | JNull => Raise (TypeError "argument of type 'NoneType' is not iterable")
  end.

(** Lines 36-37 and 118-119 on any body: [Ok true] when the view aborts
    with 400, [Ok false] when the guard lets the request through, [Raise]
    when evaluating the guard raises.  The [or] stops at its first true
    operand. *)
Definition request_guard (body : option json) : fallible bool :=
  match body with
  | None => Ok true
  | Some v =>
      if negb (truthy v) then Ok true
      else match py_in "impl-url" v with
           | Raise e => Raise e
           | Ok false => Ok true
           | Ok true =>
               match py_in "qpu-name" v with
               | Raise e => Raise e
               | Ok found => Ok (negb found)
               end
           end
  end.

(** How a body that is not a dict ends either view: the guard aborts or
    raises, or else [request.json['impl-url']] (lines 39 and 120) raises,
    since a string or a list takes no string subscript. *)
Definition non_dict_outcome (v : json) : outcome :=
  match request_guard (Some v) with
  | Raise e => Unhandled e
  | Ok true => Abort 400
  | Ok false =>
      match v with
      | JStr _ => Unhandled (TypeError "string indices must be integers")
      | _ => Unhandled (TypeError "list indices must be integers or slices, not str")
      end
  end.

Section AnyBody.

Context `{Env : Collaborators}.

(** The transpile view on the body as it was parsed. *)
Definition transpile_request (fuel : nat) (body : option json)
  : list (event Circuit Params) * option outcome :=
  match body with
  | None => transpile_circuit fuel None
  | Some (JObj fields) => transpile_circuit fuel (Some (body_dict fields))
  | Some v => ([], Some (non_dict_outcome v))
  end.

(** The execute view on the body as it was parsed. *)
Definition execute_request (new_id : string) (body : option json) (st : service)
  : service * outcome :=
  match body with
  | None => execute_circuit new_id None st
  | Some (JObj fields) => execute_circuit new_id (Some (body_dict fields)) st
  | Some v => (st, non_dict_outcome v)
  end.

End AnyBody.

(** The three calls the transpile view makes before its loop. *)
Definition is_prelude_call {Circuit Params : Type} (e : event Circuit Params) : bool :=
  match e with
  | SetupCredentials _ _ | PrepareCodeFromUrl _ _ | GetBackend _ _ => true
  | _ => false
  end.

(** A string in which the character [c] does not occur. *)
Definition lacks (c : ascii) (s : string) : Prop :=
  ~ In c (list_ascii_of_string s).

(** Every row of the table sits under its own id. *)
Definition keyed_by_id `{Env : Collaborators} (st : service) : Prop :=
  forall k r, results st !! k = Some r -> ResultModel.id r = k.
(** * Properties *)

(** ** The short-name pattern *)

Example re_hadamard :
  Re.rmatch Re.short_name_pattern
    "https://raw.githubusercontent.com/PlanQK/qiskit-service/master/test/data/hadamard.py"
  = Some "hadamard.py".
Proof. reflexivity. Qed.

Example re_greedy : Re.rmatch Re.short_name_pattern "a/b.py/c.py.py" = Some "c.py.py".
Proof. reflexivity. Qed.

Example re_no_slash : Re.rmatch Re.short_name_pattern "hadamard.py" = None.
Proof. reflexivity. Qed.

Example re_pyc : Re.rmatch Re.short_name_pattern "http://x/a.pyc" = Some "a.py".
Proof. reflexivity. Qed.


Lemma run_star_nil p s ing acc :
  s = [] -> Re.run (Re.DotStar :: p) s ing acc = Re.run p [] ing acc.
Proof. intros ->. reflexivity. Qed.

Lemma run_star_cons p x s ing acc :
  Re.run (Re.DotStar :: p) (x :: s) ing acc =
  if Re.is_newline x then Re.run p (x :: s) ing acc
  else match Re.run (Re.DotStar :: p) s ing (if ing then x :: acc else acc) with
       | Some r => Some r
       | None => Re.run p (x :: s) ing acc
       end.
Proof. reflexivity. Qed.

Lemma run_matches p : forall s ing acc, is_Some (Re.run p s ing acc) <-> matches p s.
Proof.
  induction p as [|it p IHp]; intros s ing acc.
  - simpl. split; [done | eauto].
  - destruct it as [c| | |].
    + simpl. destruct s as [|x s].
      * split; [intros [? ?]; discriminate | intros (r & ? & _); discriminate].
      * destruct (Ascii.eqb_spec x c) as [->|Hne].
        -- rewrite IHp. split; [eauto | intros (r & Hr & Hm); congruence].
        -- split; [intros [? ?]; discriminate | intros (r & Hr & _); congruence].
    + revert acc. induction s as [|x s IHs]; intros acc.
      * rewrite run_star_nil by reflexivity. rewrite IHp. simpl. split.
        -- intros Hm. exists [], []. auto.
        -- intros (a & r & Hs & _ & Hm). symmetry in Hs.
           apply app_eq_nil in Hs as [_ ->]. exact Hm.
      * rewrite run_star_cons. destruct (Re.is_newline x) eqn:Hnl.
        -- rewrite IHp. simpl. split.
           ++ intros Hm. exists [], (x :: s). auto.
           ++ intros (a & r & Hs & Ha & Hm). destruct a as [|y a].
              ** simpl in Hs. subst r. exact Hm.
              ** simpl in Hs. inversion Hs; subst y. inversion Ha; congruence.
        -- specialize (IHs (if ing then x :: acc else acc)).
           destruct (Re.run (Re.DotStar :: p) s ing (if ing then x :: acc else acc))
             as [g|] eqn:Hstar.
           ++ split; [intros _ | eauto].
              destruct IHs as [IHs _]. destruct IHs as (a & r & Hs & Ha & Hm); [eauto|].
              exists (x :: a), r. simpl. split; [congruence|]. split; [|exact Hm].
              constructor; assumption.
           ++ rewrite IHp. simpl. split.
              ** intros Hm. exists [], (x :: s). auto.
              ** intros (a & r & Hs & Ha & Hm). destruct a as [|y a].
                 --- simpl in Hs. subst r. exact Hm.
                 --- simpl in Hs. inversion Hs; subst. inversion Ha; subst.
                     destruct IHs as [_ IHs]. destruct IHs as [? ?]; [|discriminate].
                     exists a, r. auto.
    + simpl. apply IHp.
    + simpl. apply IHp.
Qed.

Lemma matches_short_name_pattern u :
  matches Re.short_name_pattern (list_ascii_of_string u) <-> slash_then_dot_py u.
Proof.
  unfold slash_then_dot_py. simpl. split.
  - intros (a & r1 & Hu & Ha & r2 & -> & b & r3 & -> & Hb & r4 & -> & r5 & -> & r6 & -> & _).
    exists a, b, r6. auto.
  - intros (a & b & r & Hu & Ha & Hb).
    exists a, ("/"%char :: b ++ "."%char :: "p"%char :: "y"%char :: r).
    split; [exact Hu|]. split; [exact Ha|].
    eexists; split; [reflexivity|]. exists b; eexists; split; [reflexivity|].
    split; [exact Hb|]. repeat (eexists; split; [reflexivity|]). exact I.
Qed.

(** [re.match] finds nothing exactly on the strings that have no ['/']
    followed later by [".py"]. *)
Lemma short_name_match_None u :
  Re.rmatch Re.short_name_pattern u = None <-> ~ slash_then_dot_py u.
Proof.
  rewrite <- matches_short_name_pattern.
  rewrite <- (run_matches Re.short_name_pattern (list_ascii_of_string u) false []).
  unfold Re.rmatch.
  destruct (Re.run Re.short_name_pattern (list_ascii_of_string u) false []) as [g|].
  - split; [discriminate | intros H; exfalso; apply H; eauto].
  - split; [intros _ [? ?]; discriminate | reflexivity].
Qed.

Example stub_request_reaches_loop :
  transpile_circuit
    (Env := Stub.env_ok) 5 (Some (Stub.request Stub.url_hadamard))
  = ([SetupCredentials (JStr "qiskit") (JStr EmptyString);
      PrepareCodeFromUrl (JStr Stub.url_hadamard) (JStr EmptyString);
      GetBackend (JStr "ibmq") (JStr "ibmq_qasm_simulator");
      TketTranspile 0%nat false (Ok 1%nat);
      TketTranspile 1%nat false (Ok 2%nat);
      Log INFO (Transpiled "hadamard.py" (JStr "ibmq_qasm_simulator") 1 2)],
     Some (Respond (jsonify [("depth", JNum 2); ("width", JNum 1)] 200))).
Proof. vm_compute. reflexivity. Qed.

(** ** The convergence loop *)

Section LoopFacts.

Context `{Env : Collaborators}.
Variables (sdk qpu_name : json) (backend : Backend) (short_impl_name : string).

Local Abbreviation loop := (convergence_loop sdk qpu_name backend short_impl_name).
Local Abbreviation lower c p := (tket_transpile_circuit c sdk backend short_impl_name p).

(** One turn of the loop, case by case. *)
Lemma loop_converged fuel c p :
  is_tk_circuit c = true -> loop (S fuel) c p = ([], Some (Converged c)).
Proof. intros H. simpl. rewrite H. reflexivity. Qed.

Lemma loop_lowered fuel c p c' :
  is_tk_circuit c = false -> lower c p = Ok c' ->
  loop (S fuel) c p =
    (TketTranspile c p (Ok c') :: (loop fuel c' p).1, (loop fuel c' p).2).
Proof.
  intros Htk Hl. simpl. rewrite Htk, Hl.
  destruct (convergence_loop _ _ _ _ fuel c' p). reflexivity.
Qed.

Lemma loop_escalates fuel c gate :
  is_tk_circuit c = false -> lower c false = Raise (UnsupportedGateException gate) ->
  loop (S fuel) c false =
    (TketTranspile c false (Raise (UnsupportedGateException gate))
       :: Log WARN (UnsupportedGate gate short_impl_name)
       :: (loop fuel c true).1,
     (loop fuel c true).2).
Proof.
  intros Htk Hl. simpl. rewrite Htk, Hl. simpl.
  destruct (convergence_loop _ _ _ _ fuel c true). reflexivity.
Qed.

Lemma loop_breaks fuel c gate :
  is_tk_circuit c = false -> lower c true = Raise (UnsupportedGateException gate) ->
  loop (S fuel) c true =
    ([TketTranspile c true (Raise (UnsupportedGateException gate));
      Log WARN (UnsupportedGate gate short_impl_name);
      Log WARN (PrecompilingFailed short_impl_name)],
     Some (Broke c)).
Proof. intros Htk Hl. simpl. rewrite Htk, Hl. reflexivity. Qed.

Lemma loop_too_many_qubits fuel c p :
  is_tk_circuit c = false -> lower c p = Raise TooManyQubitsException ->
  loop (S fuel) c p =
    ([TketTranspile c p (Raise TooManyQubitsException);
      Log INFO (TooManyQubits short_impl_name qpu_name)],
     Some (Ended (Respond too_many_qubits_response))).
Proof. intros Htk Hl. simpl. rewrite Htk, Hl. reflexivity. Qed.

(** The shapes a run can have, as an induction principle: a property of
    [(fuel, circuit, flag, events, exit)] that holds for the six ways a
    turn can go holds for every run. *)
Lemma loop_run_ind (P : nat -> Circuit -> bool -> list (event Circuit Params) ->
                    option (loop_exit Circuit) -> Prop) :
  (forall c p, P O c p [] None) ->
  (forall fuel c p, is_tk_circuit c = true -> P (S fuel) c p [] (Some (Converged c))) ->
  (forall fuel c p c' evs ex,
      is_tk_circuit c = false -> lower c p = Ok c' ->
      loop fuel c' p = (evs, ex) -> P fuel c' p evs ex ->
      P (S fuel) c p (TketTranspile c p (Ok c') :: evs) ex) ->
  (forall fuel c gate evs ex,
      is_tk_circuit c = false ->
      lower c false = Raise (UnsupportedGateException gate) ->
      loop fuel c true = (evs, ex) -> P fuel c true evs ex ->
      P (S fuel) c false
        (TketTranspile c false (Raise (UnsupportedGateException gate))
           :: Log WARN (UnsupportedGate gate short_impl_name) :: evs) ex) ->
  (forall fuel c gate,
      is_tk_circuit c = false ->
      lower c true = Raise (UnsupportedGateException gate) ->
      P (S fuel) c true
        [TketTranspile c true (Raise (UnsupportedGateException gate));
         Log WARN (UnsupportedGate gate short_impl_name);
         Log WARN (PrecompilingFailed short_impl_name)]
        (Some (Broke c))) ->
  (forall fuel c p,
      is_tk_circuit c = false -> lower c p = Raise TooManyQubitsException ->
      P (S fuel) c p
        [TketTranspile c p (Raise TooManyQubitsException);
         Log INFO (TooManyQubits short_impl_name qpu_name)]
        (Some (Ended (Respond too_many_qubits_response)))) ->
  (forall fuel c p e,
      is_tk_circuit c = false -> lower c p = Raise e ->
      (forall gate, e <> UnsupportedGateException gate) ->
      e <> TooManyQubitsException ->
      P (S fuel) c p
        [TketTranspile c p (Raise e); Log WARN (CompilationFailed short_impl_name)]
        (Some (Ended (Abort 500)))) ->
  forall fuel c p, P fuel c p (loop fuel c p).1 (loop fuel c p).2.
Proof.
  intros H0 Htk Hok Hesc Hbrk Htmq Hoth.
  induction fuel as [|fuel IH]; intros c p; [apply H0|].
  simpl. destruct (is_tk_circuit c) eqn:Ec; [apply Htk; exact Ec|].
  destruct (lower c p) as [c'|e] eqn:El.
  - specialize (IH c' p).
    destruct (convergence_loop _ _ _ _ fuel c' p) as [evs ex] eqn:Er.
    simpl. eapply Hok; eauto.
  - destruct e; try (apply Hoth; [exact Ec | exact El | congruence | congruence]).
    + destruct p; simpl.
      * apply Hbrk; assumption.
      * specialize (IH c true).
        destruct (convergence_loop _ _ _ _ fuel c true) as [evs ex] eqn:Er.
        simpl. eapply Hesc; eauto.
    + apply Htmq; assumption.
Qed.

(** Shape of the attempts of a run: the first one, if any, is made on the
    circuit and with the flag the run starts from; the flag is switched
    at most once and never back; at most two attempts meet an unsupported
    gate, and only one once the flag is set. *)
Lemma loop_trace_shape fuel c p :
  let evs := (loop fuel c p).1 in
  (attempts evs = [] \/ exists rest, attempts evs = (c, p) :: rest) /\
  (escalations (attempts evs) <= (if p then 0 else 1))%nat /\
  (p = true -> Forall (fun a => a.2 = true) (attempts evs)) /\
  (unsupported_failures evs <= (if p then 1 else 2))%nat.
Proof.
  cbv zeta. pattern fuel, c, p, (loop fuel c p).1, (loop fuel c p).2.
  apply loop_run_ind; clear fuel c p.
  - intros c p. simpl.
    split; [auto|]. split; [destruct p; lia|]. split; [auto | destruct p; lia].
  - intros fuel c p _. simpl.
    split; [auto|]. split; [destruct p; lia|]. split; [auto | destruct p; lia].
  - intros fuel c p c' evs ex _ _ _ (Hhd & Hesc & Hfl & Hun).
    cbn [attempts unsupported_failures]. split; [|split; [|split]].
    + right. eauto.
    + destruct Hhd as [Hhd|(rest & Hhd)]; rewrite Hhd in *;
        destruct p; cbn [escalations] in *; lia.
    + intros ->. constructor; [reflexivity | auto].
    + exact Hun.
  - intros fuel c gate evs ex _ _ _ (Hhd & Hesc & Hfl & Hun).
    cbn [attempts unsupported_failures]. split; [|split; [|split]].
    + right. eauto.
    + destruct Hhd as [Hhd|(rest & Hhd)]; rewrite Hhd in *;
        cbn [escalations] in *; lia.
    + discriminate.
    + lia.
  - intros fuel c gate _ _. simpl.
    split; [eauto|]. split; [lia|]. split; [|lia]. intros _. repeat constructor.
  - intros fuel c p _ _. simpl.
    split; [eauto|]. split; [destruct p; lia|]. split; [|destruct p; lia].
    intros ->. repeat constructor.
  - intros fuel c p e _ _ _ _. cbn [attempts escalations].
    split; [eauto|]. split; [destruct p; lia|]. split.
    + intros ->. repeat constructor.
    + destruct e; simpl; destruct p; lia.
Qed.

(** A too-many-qubits failure is the last thing a run does. *)
Lemma loop_too_many_qubits_last fuel c0 p0 c p :
  In (TketTranspile c p (Raise TooManyQubitsException)) (loop fuel c0 p0).1 ->
  (loop fuel c0 p0).2 = Some (Ended (Respond too_many_qubits_response)) /\
  (exists before,
      (loop fuel c0 p0).1 =
      before ++ [TketTranspile c p (Raise TooManyQubitsException);
                 Log INFO (TooManyQubits short_impl_name qpu_name)] /\
      ~ In (TketTranspile c p (Raise TooManyQubitsException)) before) /\
  (p = false -> Forall (fun a => a.2 = false) (attempts (loop fuel c0 p0).1)).
Proof.
  revert c p.
  pattern fuel, c0, p0, (loop fuel c0 p0).1, (loop fuel c0 p0).2.
  apply loop_run_ind; clear fuel c0 p0.
  - intros c0 p0 c p [].
  - intros fuel c0 p0 _ c p [].
  - intros fuel c0 p0 c' evs ex _ _ Hrun IH c p [Heq|Hin]; [discriminate|].
    destruct (IH c p Hin) as (Hex & (before & Hevs & Hnot) & Hfl).
    split; [exact Hex|]. split.
    + exists (TketTranspile c0 p0 (Ok c') :: before). rewrite Hevs. split; [reflexivity|].
      intros [Heq|Hb]; [discriminate | auto].
    + intros Hp. cbn [attempts]. constructor; [|auto].
      simpl. destruct p0; [|reflexivity].
      pose proof (loop_trace_shape fuel c' true) as (_ & _ & Htrue & _).
      rewrite Hrun in Htrue. simpl in Htrue. specialize (Htrue eq_refl).
      specialize (Hfl Hp). destruct (attempts evs) as [|a l] eqn:Ea.
      * exfalso. clear -Hin Ea. induction evs as [|e evs IHe]; [destruct Hin|].
        destruct Hin as [->|Hin]; [discriminate|]. destruct e; try discriminate; auto.
      * inversion Htrue; inversion Hfl; congruence.
  - intros fuel c0 gate evs ex _ _ Hrun IH c p [Heq|[Heq|Hin]]; try discriminate.
    destruct (IH c p Hin) as (Hex & (before & Hevs & Hnot) & Hfl).
    split; [exact Hex|]. split.
    + eexists (_ :: _ :: before). rewrite Hevs. split; [reflexivity|].
      intros [Heq|[Heq|Hb]]; try discriminate; auto.
    + intros Hp. exfalso.
      pose proof (loop_trace_shape fuel c0 true) as (_ & _ & Htrue & _).
      rewrite Hrun in Htrue. simpl in Htrue. specialize (Htrue eq_refl).
      specialize (Hfl Hp). destruct (attempts evs) as [|a l] eqn:Ea.
      * clear -Hin Ea. induction evs as [|e evs IHe]; [destruct Hin|].
        destruct Hin as [->|Hin]; [discriminate|]. destruct e; try discriminate; auto.
      * inversion Htrue; inversion Hfl; congruence.
  - intros fuel c0 gate _ _ c p [Heq|[Heq|[Heq|[]]]]; discriminate.
  - intros fuel c0 p0 _ _ c p [Heq|[Heq|[]]]; [|discriminate].
    inversion Heq; subst. split; [reflexivity|]. split.
    + exists []. split; [reflexivity | intros []].
    + intros ->. simpl. repeat constructor.
  - intros fuel c0 p0 e _ _ _ Hne c p [Heq|[Heq|[]]]; [|discriminate].
    inversion Heq; subst. congruence.
Qed.

(** An escalated attempt is made on the circuit of the attempt before
    it. *)
Lemma loop_escalation_keeps_circuit fuel c0 p0 l1 c1 c2 l2 :
  attempts (loop fuel c0 p0).1 = l1 ++ (c1, false) :: (c2, true) :: l2 ->
  c2 = c1.
Proof.
  revert l1.
  pattern fuel, c0, p0, (loop fuel c0 p0).1, (loop fuel c0 p0).2.
  apply loop_run_ind; clear fuel c0 p0.
  - intros c0 p0 [|? ?]; discriminate.
  - intros fuel c0 p0 _ [|? ?]; discriminate.
  - intros fuel c0 p0 c' evs ex _ _ Hrun IH l1 Hat. cbn [attempts] in Hat.
    destruct l1 as [|a l1].
    + simpl in Hat. inversion Hat; subst.
      pose proof (loop_trace_shape fuel c' false) as ([Hh|(rest & Hh)] & _).
      * rewrite Hrun in Hh. simpl in Hh. congruence.
      * rewrite Hrun in Hh. simpl in Hh. congruence.
    + simpl in Hat. inversion Hat. eauto.
  - intros fuel c0 gate evs ex _ _ Hrun IH l1 Hat. cbn [attempts] in Hat.
    destruct l1 as [|a l1].
    + simpl in Hat. inversion Hat; subst.
      pose proof (loop_trace_shape fuel c1 true) as ([Hh|(rest & Hh)] & _).
      * rewrite Hrun in Hh. simpl in Hh. congruence.
      * rewrite Hrun in Hh. simpl in Hh. congruence.
    + simpl in Hat. inversion Hat. eauto.
  - intros fuel c0 gate _ _ [|? [|? ?]]; discriminate.
  - intros fuel c0 p0 _ _ [|? [|? ?]]; discriminate.
  - intros fuel c0 p0 e _ _ _ _ [|? [|? ?]]; discriminate.
Qed.

End LoopFacts.

(** ** The transpile view around the loop *)

Section ViewFacts.

Context `{Env : Collaborators}.

Lemma has_key_lookup (js : gmap string json) k v : js !! k = Some v -> has_key k js = true.
Proof. unfold has_key. intros ->. reflexivity. Qed.

Lemma nonempty_lookup (js : gmap string json) k v :
  js !! k = Some v -> is_empty_dict js = false.
Proof.
  intros H. unfold is_empty_dict. apply bool_decide_eq_false.
  apply (map_size_ne_0_lookup_2 js k). eauto.
Qed.

Lemma guard_passes (js : gmap string json) u q :
  js !! "impl-url" = Some u -> js !! "qpu-name" = Some q ->
  bad_request (Some js) = false.
Proof.
  intros Hu Hq. unfold bad_request.
  rewrite (nonempty_lookup js _ _ Hu), (has_key_lookup js _ _ Hu), (has_key_lookup js _ _ Hq).
  reflexivity.
Qed.

(** A request that reaches the loop runs lines 69-112 after the three
    calls of the prelude. *)
Lemma transpile_reaches_loop fuel js impl_url provider sdk qpu_name short circuit backend :
  reaches_loop js impl_url provider sdk qpu_name short circuit backend ->
  transpile_circuit fuel (Some js) =
    (prelude_events js impl_url provider sdk qpu_name
       ++ (compile_and_report sdk qpu_name backend short fuel circuit).1,
     (compile_and_report sdk qpu_name backend short fuel circuit).2).
Proof.
  intros (Hu & Hp & Hs & Hq & Hn & Hl & Hb).
  unfold transpile_circuit. rewrite (guard_passes js _ _ Hu Hq).
  rewrite Hu, Hp, Hs, Hq, Hn. unfold load_implementation. rewrite Hl, Hb.
  destruct (compile_and_report sdk qpu_name backend short fuel circuit) as [ev3 o].
  reflexivity.
Qed.

(** No lowering attempt is made unless the request reaches the loop. *)
Lemma transpile_attempt_reached fuel rq c p r :
  In (TketTranspile c p r) (transpile_circuit fuel rq).1 ->
  exists js impl_url provider sdk qpu_name short circuit backend,
    rq = Some js /\
    reaches_loop js impl_url provider sdk qpu_name short circuit backend.
Proof.
  unfold transpile_circuit. destruct rq as [js|]; [|intros []].
  destruct (bad_request (Some js)); [intros []|].
  destruct (js !! "impl-url") as [u|] eqn:Hu; [|intros []].
  destruct (js !! "provider") as [pv|] eqn:Hp; [|intros []].
  destruct (js !! "sdk") as [sd|] eqn:Hs; [|intros []].
  destruct (js !! "qpu-name") as [q|] eqn:Hq; [|intros []].
  destruct (short_name_of u) as [short|e] eqn:Hn; [|intros []].
  unfold load_implementation.
  destruct (prepare_code_from_url u _) as [[circuit|]|e] eqn:Hl.
  - destruct (get_backend pv q) as [backend|] eqn:Hb.
    + intros _. exists js, u, pv, sd, q, short, circuit, backend.
      unfold reaches_loop. auto 10.
    + simpl. intros [H|[H|[H|[H|[]]]]]; discriminate.
  - simpl. intros [H|[H|[H|[H|[]]]]]; discriminate.
  - simpl. intros [H|[H|[H|[]]]]; discriminate.
Qed.

End ViewFacts.

Lemma attempts_app {Circuit Params : Type} (a b : list (event Circuit Params)) :
  attempts (a ++ b) = attempts a ++ attempts b.
Proof.
  induction a as [|e a IH]; [reflexivity|].
  destruct e; simpl; rewrite IH; reflexivity.
Qed.

(** When a precompiled pass that succeeds returns a circuit in tket form,
    a run holds at most one attempt with precompilation. *)
Lemma loop_precompiled_once `{Env : Collaborators}
    (sdk qpu_name : json) (backend : Backend) (short_impl_name : string) :
  (forall c c',
      tket_transpile_circuit c sdk backend short_impl_name true = Ok c' ->
      is_tk_circuit c' = true) ->
  forall fuel c p,
    (precompiled_attempts
       (attempts (convergence_loop sdk qpu_name backend short_impl_name fuel c p).1)
     <= 1)%nat /\
    (is_tk_circuit c = true ->
     attempts (convergence_loop sdk qpu_name backend short_impl_name fuel c p).1 = []).
Proof.
  intros Hret fuel c p.
  pattern fuel, c, p, (convergence_loop sdk qpu_name backend short_impl_name fuel c p).1,
    (convergence_loop sdk qpu_name backend short_impl_name fuel c p).2.
  apply loop_run_ind; clear fuel c p.
  - intros c p. simpl. split; [lia | reflexivity].
  - intros fuel c p _. simpl. split; [lia | reflexivity].
  - intros fuel c p c' evs ex Htk Hl _ [IH1 IH2]. split; [|congruence].
    cbn [attempts precompiled_attempts]. destruct p; [|exact IH1].
    rewrite (IH2 (Hret _ _ Hl)). simpl. lia.
  - intros fuel c gate evs ex Htk _ _ [IH1 _]. split; [|congruence].
    cbn [attempts precompiled_attempts]. exact IH1.
  - intros fuel c gate Htk _. split; [simpl; lia | congruence].
  - intros fuel c p Htk _. split; [destruct p; simpl; lia | congruence].
  - intros fuel c p e Htk _ _ _. split; [destruct p; simpl; lia | congruence].
Qed.

(** C1 as stated fails on both of its points.  With a lowering step that,
    under precompilation, succeeds one step at a time, the loop escalates
    once and then makes two attempts with precompilation, the second on the
    partly lowered circuit, and the request is answered 200.  And with a
    backend whose validity predicate accepts the circuit, a second
    unsupported gate leaves the loop by its [break] and the request is
    answered 200 with metrics, not as a failure. *)
Lemma C1_counterexample :
  attempts
    (transpile_circuit (Env := Cases.env_precompiled_stepwise) 5
       (Some (Stub.request Stub.url_hadamard))).1
  = [(0%nat, false); (0%nat, true); (1%nat, true)] /\
  precompiled_attempts
    (attempts
       (transpile_circuit (Env := Cases.env_precompiled_stepwise) 5
          (Some (Stub.request Stub.url_hadamard))).1) = 2%nat /\
  (transpile_circuit (Env := Cases.env_precompiled_stepwise) 5
     (Some (Stub.request Stub.url_hadamard))).2
  = Some (Respond (jsonify [("depth", JNum 2); ("width", JNum 1)] 200)) /\
  transpile_circuit (Env := Cases.env_unsupported_accepted) 5
    (Some (Stub.request Stub.url_hadamard))
  = ([SetupCredentials (JStr "qiskit") (JStr EmptyString);
      PrepareCodeFromUrl (JStr Stub.url_hadamard) (JStr EmptyString);
      GetBackend (JStr "ibmq") (JStr "ibmq_qasm_simulator");
      TketTranspile 0%nat false (Raise (UnsupportedGateException "cu1"));
      Log WARN (UnsupportedGate "cu1" "hadamard.py");
      TketTranspile 0%nat true (Raise (UnsupportedGateException "cu1"));
      Log WARN (UnsupportedGate "cu1" "hadamard.py");
      Log WARN (PrecompilingFailed "hadamard.py");
      Log INFO (Transpiled "hadamard.py" (JStr "ibmq_qasm_simulator") 1 0)],
     Some (Respond (jsonify [("depth", JNum 0); ("width", JNum 1)] 200))).
Proof. repeat split; vm_compute; reflexivity. Qed.

(** C1, amended: the loop escalates to precompilation at most once, and
    what follows the escalation is decided by the lowering step and by the
    validity guard.  In every run the flag is switched at most once and at
    most two attempts fail on an unsupported gate; the first such failure
    (flag not set) sets the flag and retries on the same circuit; once set
    the flag stays set, so every later attempt runs with precompilation; a
    failure on an unsupported gate with the flag set leaves the loop through
    its [break] with no further attempt, and the view then aborts with 500
    when the validity guard rejects the circuit and returns its metrics when
    the guard accepts it; and when a precompiled pass that succeeds returns
    a circuit in tket form, a run holds at most one attempt with
    precompilation. *)
Theorem C1_escalates_at_most_once `{Env : Collaborators}
    (sdk qpu_name : json) (backend : Backend) (short_impl_name : string) :
  (forall fuel c,
      (escalations
         (attempts (convergence_loop sdk qpu_name backend short_impl_name fuel c false).1)
       <= 1)%nat /\
      (unsupported_failures
         (convergence_loop sdk qpu_name backend short_impl_name fuel c false).1 <= 2)%nat) /\
  (forall fuel c gate,
      is_tk_circuit c = false ->
      tket_transpile_circuit c sdk backend short_impl_name false
        = Raise (UnsupportedGateException gate) ->
      convergence_loop sdk qpu_name backend short_impl_name (S fuel) c false =
        (TketTranspile c false (Raise (UnsupportedGateException gate))
           :: Log WARN (UnsupportedGate gate short_impl_name)
           :: (convergence_loop sdk qpu_name backend short_impl_name fuel c true).1,
         (convergence_loop sdk qpu_name backend short_impl_name fuel c true).2)) /\
  (forall fuel c gate,
      is_tk_circuit c = false ->
      tket_transpile_circuit c sdk backend short_impl_name true
        = Raise (UnsupportedGateException gate) ->
      convergence_loop sdk qpu_name backend short_impl_name (S fuel) c true =
        ([TketTranspile c true (Raise (UnsupportedGateException gate));
          Log WARN (UnsupportedGate gate short_impl_name);
          Log WARN (PrecompilingFailed short_impl_name)],
         Some (Broke c)) /\
      (valid_circuit backend c = false ->
       after_loop qpu_name backend short_impl_name (Broke c) =
         ([Log WARN (CompilationFailed short_impl_name)], Abort 500)) /\
      (valid_circuit backend c = true ->
       after_loop qpu_name backend short_impl_name (Broke c) =
         ([Log INFO (Transpiled short_impl_name qpu_name (n_qubits c) (depth c))],
          Respond (jsonify [("depth", JNum (depth c)); ("width", JNum (n_qubits c))] 200)))) /\
  (forall fuel c,
      escalations
        (attempts (convergence_loop sdk qpu_name backend short_impl_name fuel c true).1)
      = 0%nat /\
      Forall (fun a => a.2 = true)
        (attempts (convergence_loop sdk qpu_name backend short_impl_name fuel c true).1) /\
      (unsupported_failures
         (convergence_loop sdk qpu_name backend short_impl_name fuel c true).1 <= 1)%nat) /\
  ((forall c c',
       tket_transpile_circuit c sdk backend short_impl_name true = Ok c' ->
       is_tk_circuit c' = true) ->
   forall fuel c,
     (precompiled_attempts
        (attempts (convergence_loop sdk qpu_name backend short_impl_name fuel c false).1)
      <= 1)%nat).
Proof.
  split; [|split; [|split; [|split]]].
  - intros fuel c.
    pose proof (loop_trace_shape sdk qpu_name backend short_impl_name fuel c false)
      as (_ & Hesc & _ & Hun).
    split; assumption.
  - intros fuel c gate Htk Hl. apply loop_escalates; assumption.
  - intros fuel c gate Htk Hl. split; [|split].
    + apply loop_breaks; assumption.
    + intros Hv. simpl. rewrite Hv. reflexivity.
    + intros Hv. simpl. rewrite Hv. reflexivity.
  - intros fuel c.
    pose proof (loop_trace_shape sdk qpu_name backend short_impl_name fuel c true)
      as (_ & Hesc & Hfl & Hun).
    split; [lia|]. split; [apply Hfl; reflexivity | assumption].
  - intros Hret fuel c.
    apply (loop_precompiled_once sdk qpu_name backend short_impl_name Hret fuel c false).
Qed.

(** A run in which every attempt meets an unsupported gate: one attempt
    without precompilation, one with it, then the [break]. *)
Lemma C1_escalates_at_most_once_witness :
  convergence_loop (Env := Stub.env_unsupported) (JStr "qiskit") (JStr "ibmq_santiago") tt
    "shor.py" 2 0%nat false
  = ([TketTranspile 0%nat false (Raise (UnsupportedGateException "cu1"));
      Log WARN (UnsupportedGate "cu1" "shor.py");
      TketTranspile 0%nat true (Raise (UnsupportedGateException "cu1"));
      Log WARN (UnsupportedGate "cu1" "shor.py");
      Log WARN (PrecompilingFailed "shor.py")],
     Some (Broke 0%nat))
  /\ after_loop (Env := Stub.env_unsupported) (JStr "ibmq_santiago") tt "shor.py" (Broke 0%nat)
     = ([Log WARN (CompilationFailed "shor.py")], Abort 500)
  /\ (precompiled_attempts
        (attempts
           (convergence_loop (Env := Stub.env_unsupported) (JStr "qiskit")
              (JStr "ibmq_santiago") tt "shor.py" 2 0%nat false).1) <= 1)%nat.
Proof.
  destruct (C1_escalates_at_most_once (Env := Stub.env_unsupported)
              (JStr "qiskit") (JStr "ibmq_santiago") tt "shor.py")
    as (_ & Hesc & Hbrk & _ & Honce).
  destruct (Hbrk 0%nat 0%nat "cu1" eq_refl eq_refl) as (Hloop & Hafter & _).
  split; [|split].
  - rewrite (Hesc 1%nat 0%nat "cu1" eq_refl eq_refl). rewrite Hloop. reflexivity.
  - apply Hafter. reflexivity.
  - apply Honce. intros c c' H. discriminate H.
Defined.

(** C2 as stated fails: after a first pass that lowered circuit 0 to
    circuit 1, the unsupported gate is met on circuit 1 and the escalated
    attempt is made on circuit 1, not on the loaded circuit 0. *)
Lemma C2_counterexample :
  attempts
    (convergence_loop (Env := Stub.env_partial) (JStr "qiskit") (JStr "ibmq_santiago") tt
       "shor.py" 5 0%nat false).1
  = [(0%nat, false); (1%nat, false); (1%nat, true)]
  /\ ~ retries_from_original (Env := Stub.env_partial) (JStr "qiskit")
         (JStr "ibmq_santiago") tt "shor.py" 5 0%nat.
Proof.
  split; [reflexivity|].
  intros H. specialize (H [(0%nat, false)] 1%nat 1%nat [] eq_refl). discriminate.
Qed.

(** C2, amended: the escalated attempt is made on the circuit of the failed
    attempt, the working circuit of the loop; that is the loaded circuit
    when the failed attempt was the first of the run. *)
Theorem C2_retry_on_working_circuit `{Env : Collaborators}
    (sdk qpu_name : json) (backend : Backend) (short_impl_name : string)
    (fuel : nat) (original : Circuit) (l1 : list (Circuit * bool))
    (c1 c2 : Circuit) (l2 : list (Circuit * bool)) :
  attempts (convergence_loop sdk qpu_name backend short_impl_name fuel original false).1
    = l1 ++ (c1, false) :: (c2, true) :: l2 ->
  c2 = c1 /\ (l1 = [] -> c2 = original).
Proof.
  intros Hat.
  pose proof (loop_escalation_keeps_circuit _ _ _ _ _ _ _ _ _ _ _ Hat) as ->.
  split; [reflexivity|]. intros ->. simpl in Hat.
  pose proof (loop_trace_shape sdk qpu_name backend short_impl_name fuel original false)
    as ([Hh|(rest & Hh)] & _); simpl in Hh; rewrite Hh in Hat; congruence.
Qed.

Lemma C2_retry_on_working_circuit_witness :
  (1%nat = 1%nat :> nat) /\ (([(0%nat, false)] : list (nat * bool)) = [] -> 1%nat = 0%nat).
Proof.
  exact (C2_retry_on_working_circuit (Env := Stub.env_partial) (JStr "qiskit")
           (JStr "ibmq_santiago") tt "shor.py" 5 0%nat [(0%nat, false)] 1%nat 1%nat []
           eq_refl).
Defined.

(** C3: a too-many-qubits failure ends the request on the spot.  Whenever
    an attempt of a transpile request raises it, the view returns status 200
    with the body [{"error": "too many qubits required"}] and no metrics;
    that attempt and its log line are the last events, so no lowering
    attempt follows; and when it was made without precompilation, no attempt
    of the request ran with precompilation. *)
Theorem C3_too_many_qubits_ends_the_request `{Env : Collaborators}
    (fuel : nat) (rq : request_json) (c : Circuit) (p : bool) :
  In (TketTranspile c p (Raise TooManyQubitsException)) (transpile_circuit fuel rq).1 ->
  (transpile_circuit fuel rq).2 = Some (Respond too_many_qubits_response) /\
  http_status (Respond too_many_qubits_response) = 200 /\
  returned_body (Respond too_many_qubits_response)
    = Some (JObj [("error", JStr "too many qubits required")]) /\
  (exists before short_impl_name qpu_name,
      (transpile_circuit fuel rq).1 =
        before ++ [TketTranspile c p (Raise TooManyQubitsException);
                   Log INFO (TooManyQubits short_impl_name qpu_name)] /\
      ~ In (TketTranspile c p (Raise TooManyQubitsException)) before) /\
  (p = false -> Forall (fun a => a.2 = false) (attempts (transpile_circuit fuel rq).1)).
Proof.
  intros Hin.
  destruct (transpile_attempt_reached _ _ _ _ _ Hin)
    as (js & u & pv & sd & q & short & circuit & backend & -> & Hreach).
  rewrite (transpile_reaches_loop fuel _ _ _ _ _ _ _ _ Hreach) in *.
  cbn [fst snd] in *.
  apply in_app_or in Hin. destruct Hin as [Hin|Hin].
  { simpl in Hin. destruct Hin as [H|[H|[H|[]]]]; discriminate. }
  unfold compile_and_report in *.
  pose proof (loop_too_many_qubits_last sd q backend short fuel circuit false c p) as Hlast.
  destruct (convergence_loop sd q backend short fuel circuit false) as [evs [ex|]] eqn:Hrun;
    cbn [fst snd] in Hlast.
  - assert (Hin' : In (TketTranspile c p (Raise TooManyQubitsException)) evs).
    { destruct (after_loop q backend short ex) as [evs' o] eqn:Ha. cbn [fst] in Hin.
      apply in_app_or in Hin. destruct Hin as [Hin|Hin]; [exact Hin|].
      exfalso. unfold after_loop in Ha.
      destruct ex as [c'|c'|o']; try destruct (valid_circuit backend c');
        inversion Ha; subst; simpl in Hin;
        repeat (destruct Hin as [Hin|Hin]; try discriminate); try destruct Hin. }
    destruct (Hlast Hin') as (Hex & (before & Hevs & Hnot) & Hfl).
    inversion Hex; subst ex. cbn [after_loop fst snd].
    rewrite app_nil_r. split; [reflexivity|]. split; [reflexivity|].
    split; [reflexivity|]. split.
    + exists (prelude_events js u pv sd q ++ before), short, q.
      rewrite Hevs, app_assoc. split; [reflexivity|].
      intros Hb. apply in_app_or in Hb. destruct Hb as [Hb|Hb]; [|auto].
      simpl in Hb. destruct Hb as [H|[H|[H|[]]]]; discriminate.
    + intros Hp. rewrite attempts_app. simpl. auto.
  - cbn [fst] in Hin. destruct (Hlast Hin) as (Hex & _). discriminate.
Qed.

(** The first attempt already finds the backend too small. *)
Lemma C3_too_many_qubits_ends_the_request_witness :
  transpile_circuit (Env := Stub.env_too_many_qubits) 3 (Some (Stub.request Stub.url_hadamard))
  = ([SetupCredentials (JStr "qiskit") (JStr EmptyString);
      PrepareCodeFromUrl (JStr Stub.url_hadamard) (JStr EmptyString);
      GetBackend (JStr "ibmq") (JStr "ibmq_qasm_simulator");
      TketTranspile 0%nat false (Raise TooManyQubitsException);
      Log INFO (TooManyQubits "hadamard.py" (JStr "ibmq_qasm_simulator"))],
     Some (Respond too_many_qubits_response))
  /\ (transpile_circuit (Env := Stub.env_too_many_qubits) 3
        (Some (Stub.request Stub.url_hadamard))).2
     = Some (Respond too_many_qubits_response).
Proof.
  split; [vm_compute; reflexivity|].
  apply (C3_too_many_qubits_ends_the_request (Env := Stub.env_too_many_qubits)
           3 (Some (Stub.request Stub.url_hadamard)) 0%nat false).
  vm_compute. auto 10.
Defined.

(** C4: the validity guard after the loop.  When the loop is left by its
    condition or by its [break], no exception having ended the view, and the
    backend's validity predicate rejects the circuit the loop was left with,
    the view aborts with status 500 and returns no body, hence no depth and
    no width. *)
Theorem C4_final_guard_rejects `{Env : Collaborators}
    (fuel : nat) (js : gmap string json) (impl_url provider sdk qpu_name : json)
    (short_impl_name : string) (circuit : Circuit) (backend : Backend) (final : Circuit) :
  reaches_loop js impl_url provider sdk qpu_name short_impl_name circuit backend ->
  (convergence_loop sdk qpu_name backend short_impl_name fuel circuit false).2
    = Some (Converged final) \/
  (convergence_loop sdk qpu_name backend short_impl_name fuel circuit false).2
    = Some (Broke final) ->
  valid_circuit backend final = false ->
  transpile_circuit fuel (Some js) =
    (prelude_events js impl_url provider sdk qpu_name
       ++ (convergence_loop sdk qpu_name backend short_impl_name fuel circuit false).1
       ++ [Log WARN (CompilationFailed short_impl_name)],
     Some (Abort 500)) /\
  http_status (Abort 500) = 500 /\
  returned_body (Abort 500) = None.
Proof.
  intros Hreach Hexit Hv.
  rewrite (transpile_reaches_loop fuel _ _ _ _ _ _ _ _ Hreach).
  unfold compile_and_report.
  destruct (convergence_loop sdk qpu_name backend short_impl_name fuel circuit false)
    as [evs ex].
  cbn [fst snd] in *.
  split; [|split; reflexivity].
  destruct Hexit as [->| ->]; simpl; rewrite Hv; reflexivity.
Qed.

(** Two passes reach tket form, and the backend still rejects the result. *)
Lemma C4_final_guard_rejects_witness :
  transpile_circuit (Env := Stub.env_invalid) 5 (Some (Stub.request Stub.url_hadamard))
  = ([SetupCredentials (JStr "qiskit") (JStr EmptyString);
      PrepareCodeFromUrl (JStr Stub.url_hadamard) (JStr EmptyString);
      GetBackend (JStr "ibmq") (JStr "ibmq_qasm_simulator");
      TketTranspile 0%nat false (Ok 1%nat);
      TketTranspile 1%nat false (Ok 2%nat);
      Log WARN (CompilationFailed "hadamard.py")],
     Some (Abort 500)).
Proof.
  refine (proj1 (C4_final_guard_rejects (Env := Stub.env_invalid) 5
           (Stub.request Stub.url_hadamard) (JStr Stub.url_hadamard) (JStr "ibmq")
           (JStr "qiskit") (JStr "ibmq_qasm_simulator") "hadamard.py" 0%nat tt 2%nat
           _ _ _)).
  - unfold reaches_loop. repeat split; vm_compute; reflexivity.
  - left. vm_compute. reflexivity.
  - reflexivity.
Defined.

(** ** Status codes of the transpile view *)

Section StatusFacts.

Context `{Env : Collaborators}.

Lemma bad_request_spec (rq : request_json) :
  bad_request rq = true <->
  rq = None \/
  exists js, rq = Some js /\
    (js = ∅ \/ js !! "impl-url" = None \/ js !! "qpu-name" = None).
Proof.
  destruct rq as [js|]; simpl; [|split; auto].
  unfold is_empty_dict, has_key. split.
  - intros H. right. exists js. split; [reflexivity|].
    destruct (js !! "impl-url"); [|auto]. destruct (js !! "qpu-name"); [|auto].
    left. rewrite !orb_false_r in H. apply bool_decide_eq_true in H.
    apply map_size_empty_iff. exact H.
  - intros [H|(js' & Hjs & H)]; [discriminate|]. inversion Hjs; subst js'.
    destruct H as [->|[->| ->]].
    + reflexivity.
    + apply orb_true_iff. left. apply orb_true_iff. right. reflexivity.
    + apply orb_true_iff. right. reflexivity.
Qed.

Lemma transpile_bad_request fuel rq :
  bad_request rq = true -> transpile_circuit fuel rq = ([], Some (Abort 400)).
Proof.
  intros H. unfold transpile_circuit. destruct rq as [js|]; [|reflexivity].
  rewrite H. reflexivity.
Qed.

(** The view ends inside the loop only with the too-many-qubits response
    or with [abort(500)]. *)
Lemma loop_ended sdk qpu_name backend short fuel c p o :
  (convergence_loop sdk qpu_name backend short fuel c p).2 = Some (Ended o) ->
  o = Respond too_many_qubits_response \/ o = Abort 500.
Proof.
  pattern fuel, c, p, (convergence_loop sdk qpu_name backend short fuel c p).1,
    (convergence_loop sdk qpu_name backend short fuel c p).2.
  apply loop_run_ind; clear fuel c p; intros; try discriminate; auto.
  - inversion H1; auto.
  - inversion H3; auto.
Qed.

(** Past the guard the view never answers 400. *)
Lemma transpile_past_guard fuel rq o :
  bad_request rq = false -> (transpile_circuit fuel rq).2 = Some o ->
  http_status o = 200 \/ http_status o = 404 \/ http_status o = 500.
Proof.
  intros Hg. unfold transpile_circuit. destruct rq as [js|]; [|discriminate].
  rewrite Hg.
  destruct (js !! "impl-url") as [u|]; [|intros [= <-]; auto].
  destruct (js !! "provider") as [pv|]; [|intros [= <-]; auto].
  destruct (js !! "sdk") as [sd|]; [|intros [= <-]; auto].
  destruct (js !! "qpu-name") as [q|]; [|intros [= <-]; auto].
  destruct (short_name_of u) as [short|e]; [|intros [= <-]; auto].
  unfold load_implementation.
  destruct (prepare_code_from_url u _) as [[circuit|]|e];
    [|intros [= <-]; auto|intros [= <-]; auto].
  destruct (get_backend pv q) as [backend|]; [|intros [= <-]; auto].
  unfold compile_and_report.
  pose proof (loop_ended sd q backend short fuel circuit false) as Hend.
  destruct (convergence_loop sd q backend short fuel circuit false) as [evs [ex|]];
    [|discriminate].
  cbn [snd] in Hend. unfold after_loop.
  destruct ex as [c'|c'|o'].
  - destruct (valid_circuit backend c'); intros [= <-]; auto.
  - destruct (valid_circuit backend c'); intros [= <-]; auto.
  - intros [= <-]. destruct (Hend o' eq_refl) as [-> | ->]; auto.
Qed.

End StatusFacts.

(** C5: the code at the requests where it departs from the claim.  A
    file-based request (with [impl-data] and [impl-language], [provider],
    [sdk] and [qpu-name], and no [impl-url]) is aborted with 400 by the
    guard, which asks for [impl-url]; a request with [impl-url], [sdk] and
    [qpu-name] and without [provider] passes the guard, which does not ask
    for [provider], and the lookup of line 40 raises a [KeyError] that
    nobody catches, status 500 and not 400. *)
Theorem C5_guard_misses_required_fields :
  field "impl-url" [("impl-data", JStr "cHJpbnQoMSk=");
                    ("impl-language", JStr "Qiskit");
                    ("qpu-name", JStr "ibmq_qasm_simulator");
                    ("provider", JStr "ibmq");
                    ("sdk", JStr "qiskit")] = None /\
  transpile_request (Env := Stub.env_ok) 5 (Some Cases.body_impl_data)
    = ([], Some (Abort 400)) /\
  transpile_request (Env := Stub.env_ok) 5 (Some Cases.body_no_provider)
    = ([], Some (Unhandled (KeyError "provider"))) /\
  http_status (Unhandled (KeyError "provider")) = 500.
Proof. repeat split; vm_compute; reflexivity. Qed.

(** C6 as stated fails: when the loader raises, the [except Exception]
    clause of the view returns the text of the exception with status 200,
    not 404. *)
Lemma C6_counterexample :
  transpile_circuit (Env := Stub.env_loader_raises) 5 (Some (Stub.request Stub.url_hadamard))
  = ([SetupCredentials (JStr "qiskit") (JStr EmptyString);
      PrepareCodeFromUrl (JStr Stub.url_hadamard) (JStr EmptyString);
      Log INFO (TranspileError "hadamard.py" (JStr "ibmq_qasm_simulator")
                  "connection refused")],
     Some (Respond (jsonify [("error", JStr "connection refused")] 200)))
  /\ http_status (Respond (jsonify [("error", JStr "connection refused")] 200)) <> 404.
Proof. split; [vm_compute; reflexivity | discriminate]. Qed.

(** The [abort(404)] of the falsy-circuit branch is raised inside the
    [try]; the [except Exception] clause catches it like any other
    exception. *)
Remark abort_in_try_is_caught :
  transpile_circuit (Env := Stub.env_no_circuit) 5 (Some (Stub.request Stub.url_hadamard))
  = ([SetupCredentials (JStr "qiskit") (JStr EmptyString);
      PrepareCodeFromUrl (JStr Stub.url_hadamard) (JStr EmptyString);
      Log WARN (ImplNotFound "hadamard.py");
      Log INFO (TranspileError "hadamard.py" (JStr "ibmq_qasm_simulator") "404 Not Found")],
     Some (Respond (jsonify [("error", JStr "404 Not Found")] 200))).
Proof. vm_compute. reflexivity. Qed.

(** C6, amended: when the implementation was loaded and the pair
    (provider, qpu-name) resolves to no backend, the view aborts with 404
    before any lowering attempt; when loading the implementation raises an
    exception [e], the view returns status 200 with the body
    [{"error": str(e)}], and neither the resolver nor the loop runs. *)
Theorem C6_unresolved_backend_404_loader_error_200 `{Env : Collaborators}
    (fuel : nat) (js : gmap string json) (impl_url provider sdk qpu_name : json)
    (short_impl_name : string) :
  js !! "impl-url" = Some impl_url ->
  js !! "provider" = Some provider ->
  js !! "sdk" = Some sdk ->
  js !! "qpu-name" = Some qpu_name ->
  short_name_of impl_url = Ok short_impl_name ->
  (forall circuit,
      prepare_code_from_url impl_url
        (ParameterDictionary (get_default "input-params" (JStr EmptyString) js))
        = Ok (Some circuit) ->
      get_backend provider qpu_name = None ->
      transpile_circuit fuel (Some js) =
        (prelude_events js impl_url provider sdk qpu_name
           ++ [Log WARN (BackendNotFound qpu_name)],
         Some (Abort 404)) /\
      http_status (Abort 404) = 404) /\
  (forall e,
      prepare_code_from_url impl_url
        (ParameterDictionary (get_default "input-params" (JStr EmptyString) js))
        = Raise e ->
      transpile_circuit fuel (Some js) =
        ([SetupCredentials sdk
            (ParameterDictionary (get_default "input-params" (JStr EmptyString) js));
          PrepareCodeFromUrl impl_url
            (ParameterDictionary (get_default "input-params" (JStr EmptyString) js));
          Log INFO (TranspileError short_impl_name qpu_name (exn_str e))],
         Some (Respond (jsonify [("error", JStr (exn_str e))] 200))) /\
      http_status (Respond (jsonify [("error", JStr (exn_str e))] 200)) = 200).
Proof.
  intros Hu Hp Hs Hq Hn. split.
  - intros circuit Hl Hb. split; [|reflexivity].
    unfold transpile_circuit. rewrite (guard_passes js _ _ Hu Hq), Hu, Hp, Hs, Hq, Hn.
    unfold load_implementation. rewrite Hl, Hb. reflexivity.
  - intros e Hl. split; [|reflexivity].
    unfold transpile_circuit. rewrite (guard_passes js _ _ Hu Hq), Hu, Hp, Hs, Hq, Hn.
    unfold load_implementation. rewrite Hl. reflexivity.
Qed.

Lemma C6_unresolved_backend_404_loader_error_200_witness :
  transpile_circuit (Env := Stub.env_no_backend) 5 (Some (Stub.request Stub.url_hadamard))
  = ([SetupCredentials (JStr "qiskit") (JStr EmptyString);
      PrepareCodeFromUrl (JStr Stub.url_hadamard) (JStr EmptyString);
      GetBackend (JStr "ibmq") (JStr "ibmq_qasm_simulator");
      Log WARN (BackendNotFound (JStr "ibmq_qasm_simulator"))],
     Some (Abort 404)).
Proof.
  refine (proj1 (proj1 (C6_unresolved_backend_404_loader_error_200
           (Env := Stub.env_no_backend) 5 (Stub.request Stub.url_hadamard)
           (JStr Stub.url_hadamard) (JStr "ibmq") (JStr "qiskit")
           (JStr "ibmq_qasm_simulator") "hadamard.py" _ _ _ _ _) 0%nat _ _));
    vm_compute; reflexivity.
Defined.

(** C10 as stated fails: in [http://x/a.pyc] no piece between slashes ends
    in [.py], yet the pattern matches (the group is [a.py], and what follows
    the match is not looked at), so the view goes on to set up credentials,
    load the implementation and compile. *)
Lemma C10_counterexample :
  has_py_segment "http://x/a.pyc" = false /\
  Re.rmatch Re.short_name_pattern "http://x/a.pyc" = Some "a.py" /\
  transpile_circuit (Env := Stub.env_ok) 5 (Some (Stub.request "http://x/a.pyc"))
  = ([SetupCredentials (JStr "qiskit") (JStr EmptyString);
      PrepareCodeFromUrl (JStr "http://x/a.pyc") (JStr EmptyString);
      GetBackend (JStr "ibmq") (JStr "ibmq_qasm_simulator");
      TketTranspile 0%nat false (Ok 1%nat);
      TketTranspile 1%nat false (Ok 2%nat);
      Log INFO (Transpiled "a.py" (JStr "ibmq_qasm_simulator") 1 2)],
     Some (Respond (jsonify [("depth", JNum 2); ("width", JNum 1)] 200))).
Proof. repeat split; vm_compute; reflexivity. Qed.

(** C10, amended: for a request with the four fields whose [impl-url] is a
    string without a ['/'] that is later followed by [".py"] (newlines
    aside), [re.match] returns no match, [.group] raises [AttributeError],
    nobody catches it (status 500), and nothing was called before: no
    credential setup, no loading, no lowering attempt. *)
Theorem C10_no_match_is_uncaught `{Env : Collaborators}
    (fuel : nat) (js : gmap string json) (url : string) (provider sdk qpu_name : json) :
  js !! "impl-url" = Some (JStr url) ->
  js !! "provider" = Some provider ->
  js !! "sdk" = Some sdk ->
  js !! "qpu-name" = Some qpu_name ->
  ~ slash_then_dot_py url ->
  Re.rmatch Re.short_name_pattern url = None /\
  transpile_circuit fuel (Some js) =
    ([], Some (Unhandled (AttributeError "'NoneType' object has no attribute 'group'"))) /\
  http_status (Unhandled (AttributeError "'NoneType' object has no attribute 'group'")) = 500.
Proof.
  intros Hu Hp Hs Hq Hno.
  apply short_name_match_None in Hno.
  split; [exact Hno|]. split; [|reflexivity].
  unfold transpile_circuit. rewrite (guard_passes js _ _ Hu Hq), Hu, Hp, Hs, Hq.
  unfold short_name_of. rewrite Hno. reflexivity.
Qed.

Lemma C10_no_match_is_uncaught_witness :
  transpile_circuit (Env := Stub.env_ok) 5 (Some (Stub.request "hadamard.py"))
  = ([], Some (Unhandled (AttributeError "'NoneType' object has no attribute 'group'"))).
Proof.
  refine (proj1 (proj2 (C10_no_match_is_uncaught (Env := Stub.env_ok) 5
           (Stub.request "hadamard.py") "hadamard.py" (JStr "ibmq") (JStr "qiskit")
           (JStr "ibmq_qasm_simulator") _ _ _ _ _))); try (vm_compute; reflexivity).
  apply short_name_match_None. vm_compute. reflexivity.
Defined.

(** ** The execute view and the polling view *)

Section PollFacts.

Context `{Env : Collaborators}.

(** The polling view hands back the state it was given. *)
Lemma get_result_state result_id (st : service) : (get_result result_id st).1 = st.
Proof.
  unfold get_result. destruct (results st !! result_id) as [r|]; [|reflexivity].
  destruct (ResultModel.complete r); [|reflexivity].
  destruct (ResultModel.result r) as [payload|]; [|reflexivity].
  destruct (json_loads payload); reflexivity.
Qed.

Lemma polls_repeat n result_id (st : service) :
  polls n result_id st = (st, repeat (get_result result_id st).2 n).
Proof.
  induction n as [|n IH]; [reflexivity|].
  simpl. pose proof (get_result_state result_id st) as Hst.
  destruct (get_result result_id st) as [st1 o]. simpl in Hst. subst st1.
  rewrite IH. reflexivity.
Qed.

End PollFacts.

(** C7: the code at the request where it departs from the claim.  A
    file-based execute request, as [test_transpile.py] posts it, is aborted
    with 400 by the guard of lines 118-119, whatever the id and the state:
    nothing is queued, no row is created, the state is the one before, and
    a poll of an id without a row ends in an uncaught [AttributeError]
    (status 500) instead of [{id, complete: false}]. *)
Theorem C7_file_based_execute_is_rejected `{Env : Collaborators}
    (new_id : string) (st : service) :
  execute_request new_id (Some Cases.body_impl_data) st = (st, Abort 400) /\
  (results st !! new_id = None ->
   get_result new_id (execute_request new_id (Some Cases.body_impl_data) st).1 =
     (st, Unhandled (AttributeError "'NoneType' object has no attribute 'complete'"))).
Proof.
  assert (H : execute_request new_id (Some Cases.body_impl_data) st = (st, Abort 400)).
  { unfold execute_request, Cases.body_impl_data, execute_circuit.
    assert (Hg : bad_request
                   (Some (body_dict [("impl-data", JStr "cHJpbnQoMSk=");
                                     ("impl-language", JStr "Qiskit");
                                     ("qpu-name", JStr "ibmq_qasm_simulator");
                                     ("provider", JStr "ibmq");
                                     ("sdk", JStr "qiskit")])) = true)
      by (vm_compute; reflexivity).
    rewrite Hg. reflexivity. }
  split; [exact H|]. intros Hnone. rewrite H. cbn [fst].
  unfold get_result. rewrite Hnone. reflexivity.
Qed.

Lemma C7_file_based_execute_is_rejected_witness :
  get_result (Env := Stub.env_ok) "7c1d"
    (execute_request (Env := Stub.env_ok) "7c1d" (Some Cases.body_impl_data)
       Stub.dummy_service).1 =
    (Stub.dummy_service,
     Unhandled (AttributeError "'NoneType' object has no attribute 'complete'")).
Proof.
  exact (proj2 (C7_file_based_execute_is_rejected (Env := Stub.env_ok) "7c1d"
                  Stub.dummy_service) eq_refl).
Defined.

(** X20: an execute request that carries [impl-url], [provider], [sdk] and
    [qpu-name], with a job id that has no row yet, is answered at once with
    status 202,
    a [Location] header that names the results resource of the job id just
    drawn, and a body that holds the same [Location]; the job is on the
    queue, the table has a row for that id with [complete = false] and no
    payload, and a poll of that id on the resulting state returns
    [{id, complete: false}], without a [result] field. *)
Theorem X20_accepted_execute_then_poll `{Env : Collaborators}
    (new_id : string) (js : gmap string json) (impl_url provider sdk qpu_name : json)
    (st : service) :
  js !! "impl-url" = Some impl_url ->
  js !! "provider" = Some provider ->
  js !! "sdk" = Some sdk ->
  js !! "qpu-name" = Some qpu_name ->
  results st !! new_id = None ->
  exists st',
    execute_circuit new_id (Some js) st =
      (st', Respond {| status_code := 202;
                       headers := [("Location", results_prefix +:+ new_id)];
                       body := JObj [("Location", JStr (results_prefix +:+ new_id))] |}) /\
    execute_queue st' =
      execute_queue st ++
        [mkJob new_id "app.tasks.execute" impl_url qpu_name
           (ParameterDictionary (get_default "input-params" (JStr EmptyString) js))
           (get_default "shots" (JNum 1024) js) provider sdk] /\
    results st' = <[new_id := ResultModel.mkResult new_id false None]> (results st) /\
    results st' !! new_id = Some (ResultModel.mkResult new_id false None) /\
    get_result new_id st' =
      (st', Respond (jsonify [("id", JStr new_id); ("complete", JBool false)] 200)) /\
    field "result" [("id", JStr new_id); ("complete", JBool false)] = None.
Proof.
  intros Hu Hp Hs Hq Hfresh.
  unfold execute_circuit. rewrite (guard_passes js _ _ Hu Hq), Hu, Hp, Hs, Hq.
  unfold enqueue, add_and_commit. cbn [job_id results ResultModel.new ResultModel.id].
  rewrite Hfresh. cbn [execute_queue results log].
  eexists. split; [reflexivity|]. unfold logging_info. cbn [execute_queue results log].
  split; [reflexivity|]. split; [reflexivity|].
  split; [apply lookup_insert_eq|]. split; [|reflexivity].
  unfold get_result. cbn [results]. rewrite lookup_insert_eq. reflexivity.
Qed.

Lemma X20_accepted_execute_then_poll_witness :
  exists st',
    execute_circuit (Env := Stub.env_ok) "7c1d" (Some (Stub.request Stub.url_hadamard))
      Stub.empty_service =
      (st', Respond {| status_code := 202;
                       headers := [("Location", "/pytket-service/api/v1.0/results/7c1d")];
                       body := JObj [("Location",
                                      JStr "/pytket-service/api/v1.0/results/7c1d")] |}) /\
    get_result "7c1d" st' =
      (st', Respond (jsonify [("id", JStr "7c1d"); ("complete", JBool false)] 200)).
Proof.
  destruct (X20_accepted_execute_then_poll (Env := Stub.env_ok) "7c1d"
              (Stub.request Stub.url_hadamard) (JStr Stub.url_hadamard) (JStr "ibmq")
              (JStr "qiskit") (JStr "ibmq_qasm_simulator") Stub.empty_service
              eq_refl eq_refl eq_refl eq_refl eq_refl)
    as (st' & Hexec & _ & _ & _ & Hpoll & _).
  exists st'. split; [exact Hexec | exact Hpoll].
Defined.

(** C8: polling changes nothing and can be repeated.  The view returns the
    state it was given (the result table, the queue and the log alike), so
    any number of polls of one id, with no write in between, return the
    same response each time; for a completed row whose payload parses that
    response is [{id, complete: true, result}] with the parsed payload. *)
Theorem C8_polling_is_read_only `{Env : Collaborators}
    (result_id : string) (st : service) :
  (get_result result_id st).1 = st /\
  get_result result_id (get_result result_id st).1 = get_result result_id st /\
  (forall n, polls n result_id st = (st, repeat (get_result result_id st).2 n)) /\
  (forall r payload parsed,
      results st !! result_id = Some r ->
      ResultModel.complete r = true ->
      ResultModel.result r = Some payload ->
      json_loads payload = Ok parsed ->
      forall n,
        polls n result_id st =
          (st, repeat (Respond (jsonify [("id", JStr (ResultModel.id r));
                                         ("complete", JBool true);
                                         ("result", parsed)] 200)) n)).
Proof.
  split; [apply get_result_state|].
  split; [rewrite get_result_state; reflexivity|].
  split; [intros n; apply polls_repeat|].
  intros r payload parsed Hr Hc Hp Hj n. rewrite polls_repeat.
  unfold get_result. rewrite Hr, Hc, Hp, Hj. reflexivity.
Qed.

Lemma C8_polling_is_read_only_witness :
  polls (Env := Stub.env_ok) 3 "1" Stub.dummy_service =
    (Stub.dummy_service,
     repeat (Respond (jsonify [("id", JStr "1"); ("complete", JBool true);
                               ("result", JArr [JNum 1])] 200)) 3).
Proof.
  exact (proj2 (proj2 (proj2 (C8_polling_is_read_only (Env := Stub.env_ok) "1"
           Stub.dummy_service)))
           (ResultModel.mkResult "1" true (Some "[1]")) "[1]" (JArr [JNum 1])
           eq_refl eq_refl eq_refl eq_refl 3%nat).
Defined.

(** C9: polling an id that has no row.  [Result.query.get] returns [None],
    reading [.complete] on it raises [AttributeError], nobody catches it:
    the status is 500, no JSON body is returned, and the state is left as
    it was. *)
Theorem C9_poll_unknown_id `{Env : Collaborators} (result_id : string) (st : service) :
  results st !! result_id = None ->
  get_result result_id st =
    (st, Unhandled (AttributeError "'NoneType' object has no attribute 'complete'")) /\
  http_status (get_result result_id st).2 = 500 /\
  returned_body (get_result result_id st).2 = None.
Proof.
  intros Hnone. unfold get_result. rewrite Hnone. repeat split.
Qed.

Lemma C9_poll_unknown_id_witness :
  get_result (Env := Stub.env_ok) "2" Stub.dummy_service =
    (Stub.dummy_service,
     Unhandled (AttributeError "'NoneType' object has no attribute 'complete'")).
Proof.
  exact (proj1 (C9_poll_unknown_id (Env := Stub.env_ok) "2" Stub.dummy_service eq_refl)).
Defined.

Example poll_incomplete_row :
  get_result (Env := Stub.env_ok) "0" Stub.dummy_service =
    (Stub.dummy_service,
     Respond (jsonify [("id", JStr "0"); ("complete", JBool false)] 200)).
Proof. vm_compute. reflexivity. Qed.


(** * Further properties of the views *)

(** ** More on the convergence loop *)

Section LoopMore.

Context `{Env : Collaborators}.
Variables (sdk qpu_name : json) (backend : Backend) (short_impl_name : string).

Local Abbreviation loop := (convergence_loop sdk qpu_name backend short_impl_name).
Local Abbreviation lower c p := (tket_transpile_circuit c sdk backend short_impl_name p).

(** What the way out of the loop says about the circuit. *)
Lemma loop_exit_circuit fuel c p final :
  ((loop fuel c p).2 = Some (Converged final) -> is_tk_circuit final = true) /\
  ((loop fuel c p).2 = Some (Broke final) ->
     is_tk_circuit final = false /\
     exists gate, lower final true = Raise (UnsupportedGateException gate)).
Proof.
  pattern fuel, c, p, (loop fuel c p).1, (loop fuel c p).2.
  apply loop_run_ind; clear fuel c p; intros; try (split; intros; discriminate); auto.
  - split; intros [= <-]; auto.
  - split; [discriminate|]. intros [= <-]. eauto.
Qed.

(** A run that ended keeps its events and its exit under any larger
    bound. *)
Lemma loop_fuel_stable fuel c p ex k :
  (loop fuel c p).2 = Some ex -> loop (fuel + k) c p = loop fuel c p.
Proof.
  revert ex.
  pattern fuel, c, p, (loop fuel c p).1, (loop fuel c p).2.
  apply loop_run_ind; clear fuel c p.
  - intros c p ex. discriminate.
  - intros fuel c p Htk ex _. cbn [Nat.add].
    rewrite !(loop_converged _ _ _ _ _ c p Htk). reflexivity.
  - intros fuel c p c' evs ex' Htk Hl Hrun IH ex Hex. cbn [Nat.add].
    rewrite (loop_lowered _ _ _ _ (fuel + k) c p c' Htk Hl).
    rewrite (loop_lowered _ _ _ _ fuel c p c' Htk Hl).
    rewrite (IH ex Hex). reflexivity.
  - intros fuel c gate evs ex' Htk Hl Hrun IH ex Hex. cbn [Nat.add].
    rewrite (loop_escalates _ _ _ _ (fuel + k) c gate Htk Hl).
    rewrite (loop_escalates _ _ _ _ fuel c gate Htk Hl).
    rewrite (IH ex Hex). reflexivity.
  - intros fuel c gate Htk Hl ex _. cbn [Nat.add].
    rewrite !(loop_breaks _ _ _ _ _ c gate Htk Hl). reflexivity.
  - intros fuel c p Htk Hl ex _. cbn [Nat.add].
    rewrite !(loop_too_many_qubits _ _ _ _ _ c p Htk Hl). reflexivity.
  - intros fuel c p e Htk Hl Hns Hnt ex _. cbn [Nat.add]. simpl. rewrite Htk, Hl.
    destruct e; try reflexivity. exfalso. eapply Hns. reflexivity.
Qed.

(** A failure that is neither of the two named ones is the last thing a
    run does, and the run ends in [abort(500)]. *)
Lemma loop_other_failure_last fuel c0 p0 c p e :
  (forall gate, e <> UnsupportedGateException gate) ->
  e <> TooManyQubitsException ->
  In (TketTranspile c p (Raise e)) (loop fuel c0 p0).1 ->
  (loop fuel c0 p0).2 = Some (Ended (Abort 500)) /\
  exists before,
    (loop fuel c0 p0).1 =
      before ++ [TketTranspile c p (Raise e);
                 Log WARN (CompilationFailed short_impl_name)].
Proof.
  intros Hns Hnt.
  pattern fuel, c0, p0, (loop fuel c0 p0).1, (loop fuel c0 p0).2.
  apply loop_run_ind; clear fuel c0 p0.
  - intros c0 p0 [].
  - intros fuel c0 p0 _ [].
  - intros fuel c0 p0 c' evs ex _ _ _ IH [Heq|Hin]; [discriminate|].
    destruct (IH Hin) as (Hex & before & ->). split; [exact Hex|].
    exists (TketTranspile c0 p0 (Ok c') :: before). reflexivity.
  - intros fuel c0 gate evs ex _ _ _ IH [Heq|[Heq|Hin]];
      [inversion Heq; subst; exfalso; eapply Hns; reflexivity | discriminate |].
    destruct (IH Hin) as (Hex & before & ->). split; [exact Hex|].
    eexists (_ :: _ :: before). reflexivity.
  - intros fuel c0 gate _ _ [Heq|[Heq|[Heq|[]]]]; try discriminate.
    inversion Heq; subst. exfalso. eapply Hns. reflexivity.
  - intros fuel c0 p0 _ _ [Heq|[Heq|[]]]; [|discriminate].
    inversion Heq; subst. congruence.
  - intros fuel c0 p0 e' _ _ _ _ [Heq|[Heq|[]]]; [|discriminate].
    inversion Heq; subst. split; [reflexivity|]. exists []. reflexivity.
Qed.

End LoopMore.

Section ViewMore.

Context `{Env : Collaborators}.

(** The events and the outcome of a request that reaches the loop, by the
    way the loop is left. *)
Lemma transpile_loop_ended fuel js impl_url provider sdk qpu_name short circuit backend o :
  reaches_loop js impl_url provider sdk qpu_name short circuit backend ->
  (convergence_loop sdk qpu_name backend short fuel circuit false).2 = Some (Ended o) ->
  transpile_circuit fuel (Some js) =
    (prelude_events js impl_url provider sdk qpu_name
       ++ (convergence_loop sdk qpu_name backend short fuel circuit false).1,
     Some o).
Proof.
  intros Hreach Hex. rewrite (transpile_reaches_loop fuel _ _ _ _ _ _ _ _ Hreach).
  unfold compile_and_report.
  destruct (convergence_loop sdk qpu_name backend short fuel circuit false) as [evs ex].
  cbn [snd] in Hex. subst ex. cbn [after_loop fst snd]. rewrite app_nil_r. reflexivity.
Qed.

Lemma transpile_loop_left fuel js impl_url provider sdk qpu_name short circuit backend final :
  reaches_loop js impl_url provider sdk qpu_name short circuit backend ->
  (convergence_loop sdk qpu_name backend short fuel circuit false).2 = Some (Converged final)
  \/ (convergence_loop sdk qpu_name backend short fuel circuit false).2 = Some (Broke final) ->
  valid_circuit backend final = true ->
  transpile_circuit fuel (Some js) =
    (prelude_events js impl_url provider sdk qpu_name
       ++ (convergence_loop sdk qpu_name backend short fuel circuit false).1
       ++ [Log INFO (Transpiled short qpu_name (n_qubits final) (depth final))],
     Some (Respond (jsonify [("depth", JNum (depth final));
                             ("width", JNum (n_qubits final))] 200))).
Proof.
  intros Hreach Hex Hv. rewrite (transpile_reaches_loop fuel _ _ _ _ _ _ _ _ Hreach).
  unfold compile_and_report.
  destruct (convergence_loop sdk qpu_name backend short fuel circuit false) as [evs ex].
  cbn [fst snd] in *. destruct Hex as [-> | ->]; simpl; rewrite Hv; reflexivity.
Qed.

End ViewMore.

Section AttemptsOfTheView.

Context `{Env : Collaborators}.

(** The attempts among the events of the view are those of its loop. *)
Lemma transpile_attempt_in_loop fuel rq c p r :
  In (TketTranspile c p r) (transpile_circuit fuel rq).1 ->
  exists js impl_url provider sdk qpu_name short circuit backend,
    rq = Some js /\
    reaches_loop js impl_url provider sdk qpu_name short circuit backend /\
    In (TketTranspile c p r)
      (convergence_loop sdk qpu_name backend short fuel circuit false).1 /\
    exists tail,
      (transpile_circuit fuel rq).1 =
        prelude_events js impl_url provider sdk qpu_name
          ++ (convergence_loop sdk qpu_name backend short fuel circuit false).1 ++ tail.
Proof.
  intros Hin.
  destruct (transpile_attempt_reached _ _ _ _ _ Hin)
    as (js & u & pv & sd & q & short & circuit & backend & -> & Hreach).
  exists js, u, pv, sd, q, short, circuit, backend.
  split; [reflexivity|]. split; [exact Hreach|].
  rewrite (transpile_reaches_loop fuel _ _ _ _ _ _ _ _ Hreach) in *.
  cbn [fst] in *. unfold compile_and_report in *.
  destruct (convergence_loop sd q backend short fuel circuit false) as [evs [ex|]].
  - destruct (after_loop q backend short ex) as [evs' o] eqn:Ha. cbn [fst] in *.
    split; [|exists evs'; reflexivity].
    apply in_app_or in Hin. destruct Hin as [Hin|Hin].
    { simpl in Hin. destruct Hin as [H|[H|[H|[]]]]; discriminate. }
    apply in_app_or in Hin. destruct Hin as [Hin|Hin]; [exact Hin|].
    exfalso. unfold after_loop in Ha.
    destruct ex as [c'|c'|o']; try destruct (valid_circuit backend c');
      inversion Ha; subst; simpl in Hin;
      repeat (destruct Hin as [Hin|Hin]; try discriminate); try destruct Hin.
  - cbn [fst] in *. split; [|exists []; rewrite app_nil_r; reflexivity].
    apply in_app_or in Hin. destruct Hin as [Hin|Hin]; [|exact Hin].
    simpl in Hin. destruct Hin as [H|[H|[H|[]]]]; discriminate.
Qed.

(** From a start without precompilation, an attempt with precompilation
    comes after an attempt that met an unsupported gate. *)
Lemma loop_precompile_after_unsupported sdk qpu_name backend short fuel c0 c r :
  In (TketTranspile c true r)
    (convergence_loop sdk qpu_name backend short fuel c0 false).1 ->
  exists c1 gate,
    In (TketTranspile c1 false (Raise (UnsupportedGateException gate)))
      (convergence_loop sdk qpu_name backend short fuel c0 false).1.
Proof.
  assert (H : forall p, p = false ->
    In (TketTranspile c true r) (convergence_loop sdk qpu_name backend short fuel c0 p).1 ->
    exists c1 gate,
      In (TketTranspile c1 false (Raise (UnsupportedGateException gate)))
        (convergence_loop sdk qpu_name backend short fuel c0 p).1);
    [|apply H; reflexivity].
  intros p.
  pattern fuel, c0, p, (convergence_loop sdk qpu_name backend short fuel c0 p).1,
    (convergence_loop sdk qpu_name backend short fuel c0 p).2.
  apply loop_run_ind; clear fuel c0 p.
  - intros c0 p _ [].
  - intros fuel c0 p _ _ [].
  - intros fuel c0 p c' evs ex _ _ _ IH -> [Heq|Hin]; [discriminate|].
    destruct (IH eq_refl Hin) as (c1 & gate & H1). exists c1, gate. right. exact H1.
  - intros fuel c0 gate evs ex _ _ _ _ _ _. exists c0, gate. left. reflexivity.
  - intros; discriminate.
  - intros fuel c0 p _ _ -> [Heq|[Heq|[]]]; discriminate.
  - intros fuel c0 p e _ _ _ _ -> [Heq|[Heq|[]]]; discriminate.
Qed.

End AttemptsOfTheView.

(** X1: a circuit that the loader hands back in tket form is not lowered at
    all.  The view makes no attempt; it answers 200 with the depth and the
    width of that very circuit when the backend accepts it, and aborts with
    500 when it does not. *)
Theorem X1_native_circuit_needs_no_attempt `{Env : Collaborators}
    (fuel : nat) (js : gmap string json) (impl_url provider sdk qpu_name : json)
    (short_impl_name : string) (circuit : Circuit) (backend : Backend) :
  reaches_loop js impl_url provider sdk qpu_name short_impl_name circuit backend ->
  is_tk_circuit circuit = true ->
  attempts (transpile_circuit (S fuel) (Some js)).1 = [] /\
  (valid_circuit backend circuit = true ->
     transpile_circuit (S fuel) (Some js) =
       (prelude_events js impl_url provider sdk qpu_name
          ++ [Log INFO (Transpiled short_impl_name qpu_name
                          (n_qubits circuit) (depth circuit))],
        Some (Respond (jsonify [("depth", JNum (depth circuit));
                                ("width", JNum (n_qubits circuit))] 200)))) /\
  (valid_circuit backend circuit = false ->
     transpile_circuit (S fuel) (Some js) =
       (prelude_events js impl_url provider sdk qpu_name
          ++ [Log WARN (CompilationFailed short_impl_name)],
        Some (Abort 500))).
Proof.
  intros Hreach Htk.
  rewrite (transpile_reaches_loop (S fuel) _ _ _ _ _ _ _ _ Hreach).
  unfold compile_and_report.
  rewrite (loop_converged sdk qpu_name backend short_impl_name fuel circuit false Htk).
  cbn [after_loop]. destruct (valid_circuit backend circuit).
  - split; [reflexivity|]. split; [reflexivity | discriminate].
  - split; [reflexivity|]. split; [discriminate | reflexivity].
Qed.

Lemma X1_native_circuit_needs_no_attempt_witness :
  transpile_circuit (Env := Cases.env_native) 1 (Some (Stub.request Stub.url_hadamard))
  = ([SetupCredentials (JStr "qiskit") (JStr EmptyString);
      PrepareCodeFromUrl (JStr Stub.url_hadamard) (JStr EmptyString);
      GetBackend (JStr "ibmq") (JStr "ibmq_qasm_simulator");
      Log INFO (Transpiled "hadamard.py" (JStr "ibmq_qasm_simulator") 1 2)],
     Some (Respond (jsonify [("depth", JNum 2); ("width", JNum 1)] 200))).
Proof.
  refine (proj1 (proj2 (X1_native_circuit_needs_no_attempt (Env := Cases.env_native) 0
           (Stub.request Stub.url_hadamard) (JStr Stub.url_hadamard) (JStr "ibmq")
           (JStr "qiskit") (JStr "ibmq_qasm_simulator") "hadamard.py" 2%nat tt _ _)) _).
  - unfold reaches_loop. repeat split; vm_compute; reflexivity.
  - reflexivity.
  - reflexivity.
Defined.

(** X2: the way the loop is left tells whether the circuit is in tket form.
    When the condition of the [while] ends the loop the circuit passes
    [is_tk_circuit]; when the [break] ends it the circuit does not, and the
    attempt with precompilation on that circuit met an unsupported gate. *)
Theorem X2_loop_exit_tells_tket_form `{Env : Collaborators}
    (sdk qpu_name : json) (backend : Backend) (short_impl_name : string)
    (fuel : nat) (circuit : Circuit) (precompiled : bool) (final : Circuit) :
  ((convergence_loop sdk qpu_name backend short_impl_name fuel circuit precompiled).2
     = Some (Converged final) ->
   is_tk_circuit final = true) /\
  ((convergence_loop sdk qpu_name backend short_impl_name fuel circuit precompiled).2
     = Some (Broke final) ->
   is_tk_circuit final = false /\
   exists gate,
     tket_transpile_circuit final sdk backend short_impl_name true
       = Raise (UnsupportedGateException gate)).
Proof. apply loop_exit_circuit. Qed.

Lemma X2_loop_exit_tells_tket_form_witness :
  is_tk_circuit (Collaborators := Stub.env_ok) 2%nat = true.
Proof.
  exact (proj1 (X2_loop_exit_tells_tket_form (Env := Stub.env_ok) (JStr "qiskit")
           (JStr "ibmq_santiago") tt "shor.py" 5 0%nat false 2%nat) eq_refl).
Defined.

(** X3: what a body returned by the transpile view can be.  It is either a
    single [error] field, or the [depth] and [width] of the circuit the loop
    was left with, and then the backend's validity predicate accepted that
    circuit: no metrics are returned for a circuit the backend rejects. *)
Theorem X3_returned_body_is_error_or_metrics `{Env : Collaborators}
    (fuel : nat) (rq : request_json) (r : response) :
  (transpile_circuit fuel rq).2 = Some (Respond r) ->
  (exists msg, r = jsonify [("error", JStr msg)] 200) \/
  (exists js impl_url provider sdk qpu_name short_impl_name circuit backend final,
      rq = Some js /\
      reaches_loop js impl_url provider sdk qpu_name short_impl_name circuit backend /\
      ((convergence_loop sdk qpu_name backend short_impl_name fuel circuit false).2
         = Some (Converged final) \/
       (convergence_loop sdk qpu_name backend short_impl_name fuel circuit false).2
         = Some (Broke final)) /\
      valid_circuit backend final = true /\
      r = jsonify [("depth", JNum (depth final)); ("width", JNum (n_qubits final))] 200).
Proof.
  unfold transpile_circuit. destruct rq as [js|]; [|discriminate].
  destruct (bad_request (Some js)); [discriminate|].
  destruct (js !! "impl-url") as [u|] eqn:Hu; [|discriminate].
  destruct (js !! "provider") as [pv|] eqn:Hp; [|discriminate].
  destruct (js !! "sdk") as [sd|] eqn:Hs; [|discriminate].
  destruct (js !! "qpu-name") as [q|] eqn:Hq; [|discriminate].
  destruct (short_name_of u) as [short|e] eqn:Hn; [|discriminate].
  unfold load_implementation.
  destruct (prepare_code_from_url u _) as [[circuit|]|e] eqn:Hl;
    [|intros [= <-]; left; eauto|intros [= <-]; left; eauto].
  destruct (get_backend pv q) as [backend|] eqn:Hb; [|discriminate].
  unfold compile_and_report.
  pose proof (loop_ended sd q backend short fuel circuit false) as Hend.
  destruct (convergence_loop sd q backend short fuel circuit false) as [evs [ex|]] eqn:Hrun;
    [|discriminate].
  cbn [snd] in Hend. unfold after_loop.
  assert (Hreach : reaches_loop js u pv sd q short circuit backend)
    by (unfold reaches_loop; auto 10).
  destruct ex as [c'|c'|o'].
  - destruct (valid_circuit backend c') eqn:Hv; intros [= <-].
    right. exists js, u, pv, sd, q, short, circuit, backend, c'.
    rewrite Hrun. cbn [snd]. auto 10.
  - destruct (valid_circuit backend c') eqn:Hv; intros [= <-].
    right. exists js, u, pv, sd, q, short, circuit, backend, c'.
    rewrite Hrun. cbn [snd]. auto 10.
  - intros [= ->]. destruct (Hend _ eq_refl) as [H|H]; [|discriminate].
    inversion H; subst. left. eexists. reflexivity.
Qed.

Lemma X3_returned_body_is_error_or_metrics_witness :
  (exists msg, jsonify [("error", JStr "connection refused")] 200
               = jsonify [("error", JStr msg)] 200) \/
  (exists js impl_url provider sdk qpu_name short_impl_name circuit backend final,
      Some (Stub.request Stub.url_hadamard) = Some js /\
      reaches_loop (Env := Stub.env_loader_raises)
        js impl_url provider sdk qpu_name short_impl_name circuit backend /\
      ((convergence_loop (Env := Stub.env_loader_raises)
          sdk qpu_name backend short_impl_name 5 circuit false).2
         = Some (Converged final) \/
       (convergence_loop (Env := Stub.env_loader_raises)
          sdk qpu_name backend short_impl_name 5 circuit false).2
         = Some (Broke final)) /\
      valid_circuit (Collaborators := Stub.env_loader_raises) backend final = true /\
      jsonify [("error", JStr "connection refused")] 200
      = jsonify [("depth", JNum (depth (Collaborators := Stub.env_loader_raises) final));
                 ("width", JNum (n_qubits (Collaborators := Stub.env_loader_raises) final))]
          200).
Proof.
  exact (X3_returned_body_is_error_or_metrics (Env := Stub.env_loader_raises) 5
           (Some (Stub.request Stub.url_hadamard))
           (jsonify [("error", JStr "connection refused")] 200) eq_refl).
Defined.

(** X4: precompilation is used only in answer to an unsupported gate.  If
    some attempt of a transpile request ran with the precompile flag set,
    then an attempt of the same request without the flag had raised
    [UnsupportedGateException]. *)
Theorem X4_precompile_only_after_unsupported_gate `{Env : Collaborators}
    (fuel : nat) (rq : request_json) (c : Circuit) (r : fallible Circuit) :
  In (TketTranspile c true r) (transpile_circuit fuel rq).1 ->
  exists c1 gate,
    In (TketTranspile c1 false (Raise (UnsupportedGateException gate)))
      (transpile_circuit fuel rq).1.
Proof.
  intros Hin.
  destruct (transpile_attempt_in_loop _ _ _ _ _ Hin)
    as (js & u & pv & sd & q & short & circuit & backend & -> & Hreach & Hloop
        & tail & Hevs).
  destruct (loop_precompile_after_unsupported _ _ _ _ _ _ _ _ Hloop) as (c1 & gate & H1).
  exists c1, gate. rewrite Hevs. apply in_or_app. right. apply in_or_app. left. exact H1.
Qed.

Lemma X4_precompile_only_after_unsupported_gate_witness :
  exists c1 gate,
    In (TketTranspile c1 false (Raise (UnsupportedGateException gate)))
      (transpile_circuit (Env := Cases.env_recovers) 5
         (Some (Stub.request Stub.url_hadamard))).1.
Proof.
  apply (X4_precompile_only_after_unsupported_gate (Env := Cases.env_recovers) 5
           (Some (Stub.request Stub.url_hadamard)) 0%nat (Ok 2%nat)).
  vm_compute. auto 10.
Defined.

(** X5: the escalation recovers.  When the first attempt meets an
    unsupported gate and the attempt with precompilation on the same circuit
    returns a circuit in tket form that the backend accepts, the view makes
    exactly these two attempts and answers 200 with the depth and width of
    the precompiled result. *)
Theorem X5_precompiled_retry_succeeds `{Env : Collaborators}
    (fuel : nat) (js : gmap string json) (impl_url provider sdk qpu_name : json)
    (short_impl_name : string) (circuit : Circuit) (backend : Backend)
    (gate : string) (lowered : Circuit) :
  reaches_loop js impl_url provider sdk qpu_name short_impl_name circuit backend ->
  is_tk_circuit circuit = false ->
  tket_transpile_circuit circuit sdk backend short_impl_name false
    = Raise (UnsupportedGateException gate) ->
  tket_transpile_circuit circuit sdk backend short_impl_name true = Ok lowered ->
  is_tk_circuit lowered = true ->
  valid_circuit backend lowered = true ->
  transpile_circuit (3 + fuel) (Some js) =
    (prelude_events js impl_url provider sdk qpu_name
       ++ [TketTranspile circuit false (Raise (UnsupportedGateException gate));
           Log WARN (UnsupportedGate gate short_impl_name);
           TketTranspile circuit true (Ok lowered);
           Log INFO (Transpiled short_impl_name qpu_name (n_qubits lowered) (depth lowered))],
     Some (Respond (jsonify [("depth", JNum (depth lowered));
                             ("width", JNum (n_qubits lowered))] 200))).
Proof.
  intros Hreach Htk Hfirst Hsecond Htk' Hv.
  assert (Hrun : convergence_loop sdk qpu_name backend short_impl_name (3 + fuel) circuit false
                 = ([TketTranspile circuit false (Raise (UnsupportedGateException gate));
                     Log WARN (UnsupportedGate gate short_impl_name);
                     TketTranspile circuit true (Ok lowered)],
                    Some (Converged lowered))).
  { cbn [Nat.add].
    rewrite (loop_escalates _ _ _ _ _ _ _ Htk Hfirst).
    rewrite (loop_lowered _ _ _ _ _ _ _ _ Htk Hsecond).
    rewrite (loop_converged _ _ _ _ _ _ _ Htk'). reflexivity. }
  rewrite (transpile_loop_left (3 + fuel) _ _ _ _ _ _ _ _ lowered Hreach);
    [|left; rewrite Hrun; reflexivity | exact Hv].
  rewrite Hrun. reflexivity.
Qed.

Lemma X5_precompiled_retry_succeeds_witness :
  transpile_circuit (Env := Cases.env_recovers) 3 (Some (Stub.request Stub.url_hadamard))
  = ([SetupCredentials (JStr "qiskit") (JStr EmptyString);
      PrepareCodeFromUrl (JStr Stub.url_hadamard) (JStr EmptyString);
      GetBackend (JStr "ibmq") (JStr "ibmq_qasm_simulator");
      TketTranspile 0%nat false (Raise (UnsupportedGateException "cu1"));
      Log WARN (UnsupportedGate "cu1" "hadamard.py");
      TketTranspile 0%nat true (Ok 2%nat);
      Log INFO (Transpiled "hadamard.py" (JStr "ibmq_qasm_simulator") 1 2)],
     Some (Respond (jsonify [("depth", JNum 2); ("width", JNum 1)] 200))).
Proof.
  refine (X5_precompiled_retry_succeeds (Env := Cases.env_recovers) 0
            (Stub.request Stub.url_hadamard) (JStr Stub.url_hadamard) (JStr "ibmq")
            (JStr "qiskit") (JStr "ibmq_qasm_simulator") "hadamard.py" 0%nat tt
            "cu1" 2%nat _ eq_refl eq_refl eq_refl eq_refl eq_refl).
  unfold reaches_loop. repeat split; vm_compute; reflexivity.
Defined.

(** X6: with a lowering step that, whenever it succeeds, returns a circuit
    in tket form, the loop is done after at most two attempts: under any
    bound of three or more it ends, with the same events and the same exit,
    and those events hold at most two attempts. *)
Theorem X6_two_attempts_suffice `{Env : Collaborators}
    (sdk qpu_name : json) (backend : Backend) (short_impl_name : string)
    (circuit : Circuit) :
  (forall c p c',
      tket_transpile_circuit c sdk backend short_impl_name p = Ok c' ->
      is_tk_circuit c' = true) ->
  exists evs ex,
    (forall k, convergence_loop sdk qpu_name backend short_impl_name (3 + k) circuit false
               = (evs, Some ex)) /\
    (length (attempts evs) <= 2)%nat.
Proof.
  intros Hret.
  assert (H3 : exists evs ex,
             convergence_loop sdk qpu_name backend short_impl_name 3 circuit false
             = (evs, Some ex) /\ (length (attempts evs) <= 2)%nat).
  { simpl. destruct (is_tk_circuit circuit) eqn:Htk; [eexists _, _; split; [reflexivity|simpl; lia]|].
    destruct (tket_transpile_circuit circuit sdk backend short_impl_name false)
      as [c1|e] eqn:H1.
    - rewrite (Hret _ _ _ H1). eexists _, _; split; [reflexivity|simpl; lia].
    - destruct e; try (eexists _, _; split; [reflexivity|simpl; lia]).
      simpl.
      destruct (tket_transpile_circuit circuit sdk backend short_impl_name true)
        as [c2|e] eqn:H2.
      + rewrite (Hret _ _ _ H2). eexists _, _; split; [reflexivity|simpl; lia].
      + destruct e; eexists _, _; (split; [reflexivity|simpl; lia]). }
  destruct H3 as (evs & ex & Hrun & Hlen). exists evs, ex. split; [|exact Hlen].
  intros k. rewrite (loop_fuel_stable sdk qpu_name backend short_impl_name 3 circuit false ex k).
  - exact Hrun.
  - rewrite Hrun. reflexivity.
Qed.

Lemma X6_two_attempts_suffice_witness :
  exists evs ex,
    (forall k, convergence_loop (Env := Cases.env_recovers) (JStr "qiskit")
                 (JStr "ibmq_santiago") tt "shor.py" (3 + k) 0%nat false
               = (evs, Some ex)) /\
    (length (attempts evs) <= 2)%nat.
Proof.
  apply (X6_two_attempts_suffice (Env := Cases.env_recovers) (JStr "qiskit")
           (JStr "ibmq_santiago") tt "shor.py" 0%nat).
  intros c p c'. simpl. unfold Cases.lower_needs_precompile.
  destruct p; [intros [= <-]; reflexivity | discriminate].
Defined.

(** X7: the loop itself has no bound on the number of successful passes.
    On a family of circuits none of which is in tket form and which the
    lowering step maps into itself, every bound is used up: the loop makes
    as many attempts as the bound allows and does not end, so the view gives
    no answer. *)
Theorem X7_no_bound_without_progress `{Env : Collaborators}
    (stuck : Circuit -> Prop)
    (fuel : nat) (js : gmap string json) (impl_url provider sdk qpu_name : json)
    (short_impl_name : string) (circuit : Circuit) (backend : Backend) :
  (forall c, stuck c ->
     is_tk_circuit c = false /\
     forall p, exists c',
       tket_transpile_circuit c sdk backend short_impl_name p = Ok c' /\ stuck c') ->
  reaches_loop js impl_url provider sdk qpu_name short_impl_name circuit backend ->
  stuck circuit ->
  (convergence_loop sdk qpu_name backend short_impl_name fuel circuit false).2 = None /\
  length (attempts (convergence_loop sdk qpu_name backend short_impl_name fuel circuit false).1)
    = fuel /\
  (transpile_circuit fuel (Some js)).2 = None.
Proof.
  intros Hstuck Hreach Hc.
  assert (H : forall n c p, stuck c ->
            (convergence_loop sdk qpu_name backend short_impl_name n c p).2 = None /\
            length (attempts (convergence_loop sdk qpu_name backend short_impl_name n c p).1)
              = n).
  { induction n as [|n IH]; intros c p Hs; [split; reflexivity|].
    destruct (Hstuck c Hs) as [Htk Hstep]. destruct (Hstep p) as (c' & Hl & Hs').
    rewrite (loop_lowered _ _ _ _ n c p c' Htk Hl). cbn [fst snd attempts length].
    destruct (IH c' p Hs') as [H1 H2]. split; [exact H1 | rewrite H2; reflexivity]. }
  destruct (H fuel circuit false Hc) as [Hnone Hlen].
  split; [exact Hnone|]. split; [exact Hlen|].
  rewrite (transpile_reaches_loop fuel _ _ _ _ _ _ _ _ Hreach). cbn [snd].
  unfold compile_and_report.
  destruct (convergence_loop sdk qpu_name backend short_impl_name fuel circuit false)
    as [evs ex]. cbn [snd] in Hnone. subst ex. reflexivity.
Qed.

Lemma X7_no_bound_without_progress_witness :
  (transpile_circuit (Env := Cases.env_no_progress) 7
     (Some (Stub.request Stub.url_hadamard))).2 = None.
Proof.
  refine (proj2 (proj2 (X7_no_bound_without_progress (Env := Cases.env_no_progress)
           (fun c => c = 0%nat) 7 (Stub.request Stub.url_hadamard)
           (JStr Stub.url_hadamard) (JStr "ibmq") (JStr "qiskit")
           (JStr "ibmq_qasm_simulator") "hadamard.py" 0%nat tt _ _ eq_refl))).
  - intros c ->. split; [reflexivity|]. intros p. exists 0%nat. split; reflexivity.
  - unfold reaches_loop. repeat split; vm_compute; reflexivity.
Defined.

(** X9: any other failure of the lowering step ends the request with 500.
    When an attempt raises an exception that is neither
    [UnsupportedGateException] nor [TooManyQubitsException], the view logs
    it and aborts with 500; that attempt is the last event but for the log
    line, so nothing is retried and no body is returned. *)
Theorem X9_other_failure_aborts_500 `{Env : Collaborators}
    (fuel : nat) (rq : request_json) (c : Circuit) (p : bool) (e : exn) :
  (forall gate, e <> UnsupportedGateException gate) ->
  e <> TooManyQubitsException ->
  In (TketTranspile c p (Raise e)) (transpile_circuit fuel rq).1 ->
  (transpile_circuit fuel rq).2 = Some (Abort 500) /\
  exists before short_impl_name,
    (transpile_circuit fuel rq).1 =
      before ++ [TketTranspile c p (Raise e);
                 Log WARN (CompilationFailed short_impl_name)].
Proof.
  intros Hns Hnt Hin.
  destruct (transpile_attempt_in_loop _ _ _ _ _ Hin)
    as (js & u & pv & sd & q & short & circuit & backend & -> & Hreach & Hloop & _).
  destruct (loop_other_failure_last sd q backend short fuel circuit false c p e Hns Hnt Hloop)
    as (Hex & before & Hevs).
  rewrite (transpile_loop_ended fuel _ _ _ _ _ _ _ _ _ Hreach Hex). cbn [fst snd].
  split; [reflexivity|].
  exists (prelude_events js u pv sd q ++ before), short.
  rewrite Hevs, app_assoc. reflexivity.
Qed.

Lemma X9_other_failure_aborts_500_witness :
  (transpile_circuit (Env := Cases.env_crashes) 5
     (Some (Stub.request Stub.url_hadamard))).2 = Some (Abort 500).
Proof.
  refine (proj1 (X9_other_failure_aborts_500 (Env := Cases.env_crashes) 5
           (Some (Stub.request Stub.url_hadamard)) 0%nat false
           (OtherException "timeout") _ _ _)).
  - intros gate. discriminate.
  - discriminate.
  - vm_compute. auto 10.
Defined.

(** X10: the transpile view answers 404 for one reason only.  A status 404
    means that the request had its four fields, the short name was found,
    the loader returned a circuit, and the resolver knew no backend for
    (provider, qpu-name); no lowering attempt was made. *)
Theorem X10_404_only_for_unresolved_backend `{Env : Collaborators}
    (fuel : nat) (rq : request_json) (o : outcome) :
  (transpile_circuit fuel rq).2 = Some o ->
  http_status o = 404 ->
  o = Abort 404 /\
  attempts (transpile_circuit fuel rq).1 = [] /\
  exists js impl_url provider sdk qpu_name short_impl_name circuit,
    rq = Some js /\
    js !! "impl-url" = Some impl_url /\
    js !! "provider" = Some provider /\
    js !! "sdk" = Some sdk /\
    js !! "qpu-name" = Some qpu_name /\
    short_name_of impl_url = Ok short_impl_name /\
    prepare_code_from_url impl_url
      (ParameterDictionary (get_default "input-params" (JStr EmptyString) js))
      = Ok (Some circuit) /\
    get_backend provider qpu_name = None.
Proof.
  unfold transpile_circuit. destruct rq as [js|]; [|intros [= <-]; discriminate].
  destruct (bad_request (Some js)); [intros [= <-]; discriminate|].
  destruct (js !! "impl-url") as [u|] eqn:Hu; [|intros [= <-]; discriminate].
  destruct (js !! "provider") as [pv|] eqn:Hp; [|intros [= <-]; discriminate].
  destruct (js !! "sdk") as [sd|] eqn:Hs; [|intros [= <-]; discriminate].
  destruct (js !! "qpu-name") as [q|] eqn:Hq; [|intros [= <-]; discriminate].
  destruct (short_name_of u) as [short|e] eqn:Hn; [|intros [= <-]; discriminate].
  unfold load_implementation.
  destruct (prepare_code_from_url u _) as [[circuit|]|e] eqn:Hl;
    [|intros [= <-]; discriminate|intros [= <-]; discriminate].
  destruct (get_backend pv q) as [backend|] eqn:Hb.
  - unfold compile_and_report.
    pose proof (loop_ended sd q backend short fuel circuit false) as Hend.
    destruct (convergence_loop sd q backend short fuel circuit false) as [evs [ex|]];
      [|discriminate].
    cbn [snd] in Hend. unfold after_loop. destruct ex as [c'|c'|o'].
    + destruct (valid_circuit backend c'); intros [= <-]; discriminate.
    + destruct (valid_circuit backend c'); intros [= <-]; discriminate.
    + intros [= <-]. destruct (Hend _ eq_refl) as [-> | ->]; discriminate.
  - intros [= <-] _. split; [reflexivity|]. split; [reflexivity|].
    exists js, u, pv, sd, q, short, circuit. auto 10.
Qed.

Lemma X10_404_only_for_unresolved_backend_witness :
  attempts (transpile_circuit (Env := Stub.env_no_backend) 5
              (Some (Stub.request Stub.url_hadamard))).1 = [].
Proof.
  exact (proj1 (proj2 (X10_404_only_for_unresolved_backend (Env := Stub.env_no_backend) 5
           (Some (Stub.request Stub.url_hadamard)) (Abort 404) eq_refl eq_refl))).
Defined.

(** X11: a missing implementation is not answered with 404.  When the
    loader returns no circuit, the [abort(404)] is raised inside the [try]
    and caught by its [except Exception]: the view answers 200 with the text
    of that exception in the [error] field, and neither the resolver nor the
    loop runs. *)
Theorem X11_missing_implementation_is_answered_200 `{Env : Collaborators}
    (fuel : nat) (js : gmap string json) (impl_url provider sdk qpu_name : json)
    (short_impl_name : string) :
  js !! "impl-url" = Some impl_url ->
  js !! "provider" = Some provider ->
  js !! "sdk" = Some sdk ->
  js !! "qpu-name" = Some qpu_name ->
  short_name_of impl_url = Ok short_impl_name ->
  prepare_code_from_url impl_url
    (ParameterDictionary (get_default "input-params" (JStr EmptyString) js)) = Ok None ->
  transpile_circuit fuel (Some js) =
    ([SetupCredentials sdk
        (ParameterDictionary (get_default "input-params" (JStr EmptyString) js));
      PrepareCodeFromUrl impl_url
        (ParameterDictionary (get_default "input-params" (JStr EmptyString) js));
      Log WARN (ImplNotFound short_impl_name);
      Log INFO (TranspileError short_impl_name qpu_name (exn_str (HTTPException 404)))],
     Some (Respond (jsonify [("error", JStr (exn_str (HTTPException 404)))] 200))) /\
  (forall o, (transpile_circuit fuel (Some js)).2 = Some o -> http_status o = 200).
Proof.
  intros Hu Hp Hs Hq Hn Hl.
  assert (Hrun : transpile_circuit fuel (Some js) =
    ([SetupCredentials sdk
        (ParameterDictionary (get_default "input-params" (JStr EmptyString) js));
      PrepareCodeFromUrl impl_url
        (ParameterDictionary (get_default "input-params" (JStr EmptyString) js));
      Log WARN (ImplNotFound short_impl_name);
      Log INFO (TranspileError short_impl_name qpu_name (exn_str (HTTPException 404)))],
     Some (Respond (jsonify [("error", JStr (exn_str (HTTPException 404)))] 200)))).
  { unfold transpile_circuit. rewrite (guard_passes js _ _ Hu Hq), Hu, Hp, Hs, Hq, Hn.
    unfold load_implementation. rewrite Hl. reflexivity. }
  split; [exact Hrun|]. rewrite Hrun. intros o Ho. cbn [snd] in Ho.
  inversion Ho. reflexivity.
Qed.

Lemma X11_missing_implementation_is_answered_200_witness :
  transpile_circuit (Env := Stub.env_no_circuit) 5 (Some (Stub.request Stub.url_hadamard))
  = ([SetupCredentials (JStr "qiskit") (JStr EmptyString);
      PrepareCodeFromUrl (JStr Stub.url_hadamard) (JStr EmptyString);
      Log WARN (ImplNotFound "hadamard.py");
      Log INFO (TranspileError "hadamard.py" (JStr "ibmq_qasm_simulator") "404 Not Found")],
     Some (Respond (jsonify [("error", JStr "404 Not Found")] 200))).
Proof.
  refine (proj1 (X11_missing_implementation_is_answered_200 (Env := Stub.env_no_circuit) 5
           (Stub.request Stub.url_hadamard) (JStr Stub.url_hadamard) (JStr "ibmq")
           (JStr "qiskit") (JStr "ibmq_qasm_simulator") "hadamard.py" _ _ _ _ _ _));
    vm_compute; reflexivity.
Defined.

Lemma loop_makes_no_prelude_call `{Env : Collaborators} sdk qpu_name backend short fuel c p :
  List.filter is_prelude_call (convergence_loop sdk qpu_name backend short fuel c p).1 = [].
Proof.
  pattern fuel, c, p, (convergence_loop sdk qpu_name backend short fuel c p).1,
    (convergence_loop sdk qpu_name backend short fuel c p).2.
  apply loop_run_ind; clear fuel c p; intros; auto.
Qed.

(** X12: the order of the calls before the loop.  Whenever the transpile
    view calls anything at all, its first call sets up the credentials and
    its second loads the implementation, both with the same parameter
    dictionary; after these, the only further call of that kind is at most
    one backend lookup.  In particular credentials are set up once, before
    the implementation is fetched, and also for requests that fail later. *)
Theorem X12_credentials_then_loader_then_backend `{Env : Collaborators}
    (fuel : nat) (rq : request_json) :
  (transpile_circuit fuel rq).1 = [] \/
  exists js impl_url provider sdk qpu_name tail,
    rq = Some js /\
    js !! "impl-url" = Some impl_url /\
    js !! "provider" = Some provider /\
    js !! "sdk" = Some sdk /\
    js !! "qpu-name" = Some qpu_name /\
    (transpile_circuit fuel rq).1 =
      SetupCredentials sdk
        (ParameterDictionary (get_default "input-params" (JStr EmptyString) js))
      :: PrepareCodeFromUrl impl_url
           (ParameterDictionary (get_default "input-params" (JStr EmptyString) js))
      :: tail /\
    (List.filter is_prelude_call tail = [] \/
     List.filter is_prelude_call tail = [GetBackend provider qpu_name]).
Proof.
  unfold transpile_circuit. destruct rq as [js|]; [|left; reflexivity].
  destruct (bad_request (Some js)); [left; reflexivity|].
  destruct (js !! "impl-url") as [u|] eqn:Hu; [|left; reflexivity].
  destruct (js !! "provider") as [pv|] eqn:Hp; [|left; reflexivity].
  destruct (js !! "sdk") as [sd|] eqn:Hs; [|left; reflexivity].
  destruct (js !! "qpu-name") as [q|] eqn:Hq; [|left; reflexivity].
  destruct (short_name_of u) as [short|e] eqn:Hn; [|left; reflexivity].
  right. exists js, u, pv, sd, q. unfold load_implementation.
  destruct (prepare_code_from_url u _) as [[circuit|]|e] eqn:Hl.
  - destruct (get_backend pv q) as [backend|] eqn:Hb.
    + unfold compile_and_report.
      pose proof (loop_makes_no_prelude_call sd q backend short fuel circuit false) as Hno.
      destruct (convergence_loop sd q backend short fuel circuit false) as [evs [ex|]].
      * destruct (after_loop q backend short ex) as [evs' o] eqn:Ha.
        cbn [fst app] in *.
        eexists. repeat (split; [first [reflexivity | assumption]|]). right.
        cbn [List.filter is_prelude_call app]. rewrite List.filter_app, Hno. cbn [app].
        unfold after_loop in Ha.
        destruct ex as [c'|c'|o']; try destruct (valid_circuit backend c');
          inversion Ha; reflexivity.
      * cbn [fst app] in *. eexists. repeat (split; [first [reflexivity | assumption]|]). right.
        cbn [List.filter is_prelude_call app]. rewrite Hno. reflexivity.
    + cbn [fst app]. eexists. repeat (split; [first [reflexivity | assumption]|]). right. reflexivity.
  - cbn [fst app]. eexists. repeat (split; [first [reflexivity | assumption]|]). left. reflexivity.
  - cbn [fst app]. eexists. repeat (split; [first [reflexivity | assumption]|]). left. reflexivity.
Qed.

(** ** What the short-name pattern captures *)

Section Capture.

Local Abbreviation nn := (Forall (fun x => Re.is_newline x = false)).
Local Abbreviation dot_py := ["."%char; "p"%char; "y"%char].
Local Abbreviation tail_items :=
  [Re.Chr "."; Re.Chr "p"; Re.Chr "y"; Re.GroupClose].
Local Abbreviation inner_items := (Re.DotStar :: tail_items).
Local Abbreviation slash_items := (Re.Chr "/" :: Re.GroupOpen :: inner_items).

Lemma run_tail_items s acc g :
  Re.run tail_items s true acc = Some g <->
  exists r, s = dot_py ++ r /\ g = rev acc ++ dot_py.
Proof.
  simpl. destruct s as [|x [|y [|z r]]];
    try (split; [discriminate | intros (r' & Hr & _); discriminate]).
  - destruct (Ascii.eqb_spec x "."); [|split; [discriminate | intros (r' & Hr & _); discriminate]].
    split; [discriminate | intros (r' & Hr & _); discriminate].
  - destruct (Ascii.eqb_spec x ".");
      [|split; [discriminate | intros (r' & Hr & _); inversion Hr; congruence]].
    destruct (Ascii.eqb_spec y "p"); split; try discriminate;
      intros (r' & Hr & _); discriminate.
  - destruct (Ascii.eqb_spec x ".") as [->|];
      [|split; [discriminate | intros (r' & Hr & _); inversion Hr; congruence]].
    destruct (Ascii.eqb_spec y "p") as [->|];
      [|split; [discriminate | intros (r' & Hr & _); inversion Hr; congruence]].
    destruct (Ascii.eqb_spec z "y") as [->|];
      [|split; [discriminate | intros (r' & Hr & _); inversion Hr; congruence]].
    split.
    + intros [= <-]. exists r. split; [reflexivity|].
      simpl. rewrite <- !app_assoc. reflexivity.
    + intros (r' & Hr & ->). simpl. rewrite <- !app_assoc. reflexivity.
Qed.

Lemma matches_inner s :
  matches inner_items s <-> exists b r, s = b ++ dot_py ++ r /\ nn b.
Proof.
  simpl. split.
  - intros (b & r & -> & Hb & r1 & -> & r2 & -> & r3 & -> & _). exists b, r3. auto.
  - intros (b & r & -> & Hb). exists b, (dot_py ++ r). split; [reflexivity|].
    split; [exact Hb|]. repeat (eexists; split; [reflexivity|]). exact I.
Qed.

(** The group takes the longest run that still leaves room for [.py]. *)
Lemma run_inner_items s : forall acc g,
  Re.run inner_items s true acc = Some g ->
  exists b r,
    s = b ++ dot_py ++ r /\ nn b /\ g = rev acc ++ b ++ dot_py /\
    forall b2 r2, s = b2 ++ dot_py ++ r2 -> nn b2 -> (length b2 <= length b)%nat.
Proof.
  induction s as [|x s IH]; intros acc g.
  - rewrite run_star_nil by reflexivity. intros H.
    apply run_tail_items in H as (r & Hr & _). discriminate.
  - rewrite run_star_cons. destruct (Re.is_newline x) eqn:Hnl.
    + intros H. apply run_tail_items in H as (r & Hr & _). inversion Hr; subst.
      discriminate.
    + destruct (Re.run inner_items s true (x :: acc)) as [g'|] eqn:Hstar.
      * intros [= <-]. destruct (IH _ _ Hstar) as (b & r & -> & Hb & -> & Hmax).
        exists (x :: b), r. split; [reflexivity|]. split; [constructor; assumption|].
        split; [simpl; rewrite <- !app_assoc; reflexivity|].
        intros b2 r2 Hs Hb2. destruct b2 as [|y b2]; [simpl; lia|].
        simpl in Hs. injection Hs as _ Hs'. apply Forall_inv_tail in Hb2.
        simpl. apply le_n_S. exact (Hmax b2 r2 Hs' Hb2).
      * intros H. apply run_tail_items in H as (r & Hr & ->).
        exists [], r. split; [exact Hr|]. split; [constructor|]. split; [reflexivity|].
        intros b2 r2 Hs Hb2. destruct b2 as [|y b2]; [simpl; lia|]. exfalso.
        simpl in Hs. injection Hs as Hy Hs'.
        apply Forall_inv_tail in Hb2.
        assert (Hm : matches inner_items s)
          by (apply matches_inner; exists b2, r2; split; [exact Hs' | exact Hb2]).
        apply (run_matches inner_items _ true (x :: acc)) in Hm.
        rewrite Hstar in Hm. destruct Hm as [? ?]. discriminate.
Qed.

(** The first [.*] takes the longest run after which a ['/'] and a match
    of the group follow. *)
Lemma run_outer_items s : forall g,
  Re.run Re.short_name_pattern s false [] = Some g ->
  exists a s',
    s = a ++ "/"%char :: s' /\ nn a /\ Re.run inner_items s' true [] = Some g /\
    forall a2 s2, s = a2 ++ "/"%char :: s2 -> nn a2 -> matches inner_items s2 ->
                  (length a2 <= length a)%nat.
Proof.
  unfold Re.short_name_pattern.
  assert (Hslash : forall s g,
    Re.run slash_items s false [] = Some g ->
    exists s', s = "/"%char :: s' /\ Re.run inner_items s' true [] = Some g).
  { intros [|x t] g'; cbn [Re.run]; [discriminate|].
    destruct (Ascii.eqb_spec x "/") as [->|]; [|discriminate].
    intros H. exists t. split; [reflexivity | exact H]. }
  induction s as [|x s IH]; intros g.
  - rewrite run_star_nil by reflexivity. intros H.
    apply Hslash in H as (s' & Hs & _). discriminate.
  - rewrite run_star_cons. destruct (Re.is_newline x) eqn:Hnl.
    + intros H. apply Hslash in H as (s' & Hs & _). inversion Hs; subst. discriminate.
    + destruct (Re.run (Re.DotStar :: slash_items) s false []) as [g'|] eqn:Hstar.
      * intros [= <-]. destruct (IH _ eq_refl) as (a & s' & -> & Ha & Hin & Hmax).
        exists (x :: a), s'. split; [reflexivity|]. split; [constructor; assumption|].
        split; [exact Hin|].
        intros a2 s2 Hs Ha2 Hm. destruct a2 as [|y a2]; [simpl; lia|].
        simpl in Hs. injection Hs as _ Hs'. apply Forall_inv_tail in Ha2.
        simpl. apply le_n_S. exact (Hmax a2 s2 Hs' Ha2 Hm).
      * intros H. apply Hslash in H as (s' & Hs & Hin). inversion Hs; subst.
        exists [], s'. split; [reflexivity|]. split; [constructor|]. split; [exact Hin|].
        intros a2 s2 Hs2 Ha2 Hm. destruct a2 as [|y a2]; [simpl; lia|]. exfalso.
        simpl in Hs2. injection Hs2 as Hy Hs2'. apply Forall_inv_tail in Ha2.
        assert (Hm' : matches (Re.DotStar :: slash_items) s').
        { cbn [matches]. exists a2, ("/"%char :: s2). split; [exact Hs2'|].
          split; [assumption|]. exists s2. split; [reflexivity | exact Hm]. }
        apply (run_matches _ _ false []) in Hm'.
        rewrite Hstar in Hm'. destruct Hm' as [? ?]. discriminate.
Qed.

End Capture.

Lemma list_ascii_of_string_app (s1 s2 : string) :
  list_ascii_of_string (s1 +:+ s2) = list_ascii_of_string s1 ++ list_ascii_of_string s2.
Proof. induction s1 as [|c s1 IH]; [reflexivity|]. simpl. rewrite IH. reflexivity. Qed.

Lemma string_of_list_ascii_app (l1 l2 : list ascii) :
  string_of_list_ascii (l1 ++ l2) = string_of_list_ascii l1 +:+ string_of_list_ascii l2.
Proof. induction l1 as [|c l1 IH]; [reflexivity|]. simpl. rewrite IH. reflexivity. Qed.

Lemma lacks_newline s :
  lacks Re.newline s -> Forall (fun x => Re.is_newline x = false) (list_ascii_of_string s).
Proof.
  unfold lacks. intros H. apply List.Forall_forall. intros x Hx.
  unfold Re.is_newline. destruct (Ascii.eqb_spec x Re.newline) as [->|]; [contradiction|].
  reflexivity.
Qed.

(** X13: the short name the view derives from [impl-url] is always a piece
    of the URL that stands right after a ['/'] and ends in [.py]; the part
    of the URL up to the end of that piece holds no newline. *)
Theorem X13_short_name_follows_a_slash_and_ends_in_py
    (impl_url : json) (short_impl_name : string) :
  short_name_of impl_url = Ok short_impl_name ->
  exists (u : string) (a b r : list ascii),
    impl_url = JStr u /\
    list_ascii_of_string u = a ++ "/"%char :: b ++ ["."; "p"; "y"]%char ++ r /\
    list_ascii_of_string short_impl_name = b ++ ["."; "p"; "y"]%char /\
    Forall (fun x => Re.is_newline x = false) a /\
    Forall (fun x => Re.is_newline x = false) b.
Proof.
  unfold short_name_of. destruct impl_url as [| | |u| |]; try discriminate.
  unfold Re.rmatch.
  destruct (Re.run Re.short_name_pattern (list_ascii_of_string u) false []) as [g|] eqn:Hrun;
    [|discriminate].
  intros [= <-].
  destruct (run_outer_items _ _ Hrun) as (a & s' & Hu & Ha & Hin & _).
  destruct (run_inner_items _ _ _ Hin) as (b & r & -> & Hb & -> & _).
  exists u, a, b, r. split; [reflexivity|]. split; [exact Hu|].
  split; [apply list_ascii_of_string_of_list_ascii|]. split; assumption.
Qed.

Lemma X13_short_name_follows_a_slash_and_ends_in_py_witness :
  exists (u : string) (a b r : list ascii),
    JStr Stub.url_hadamard = JStr u /\
    list_ascii_of_string u = a ++ "/"%char :: b ++ ["."; "p"; "y"]%char ++ r /\
    list_ascii_of_string "hadamard.py" = b ++ ["."; "p"; "y"]%char /\
    Forall (fun x => Re.is_newline x = false) a /\
    Forall (fun x => Re.is_newline x = false) b.
Proof.
  exact (X13_short_name_follows_a_slash_and_ends_in_py (JStr Stub.url_hadamard)
           "hadamard.py" eq_refl).
Defined.

(** X14: for a URL that ends in a file name with the extension [.py], the
    short name is that file name.  If [dir] holds no newline and [file]
    holds neither a newline nor a ['/'], the short name of
    [dir/file.py] is [file.py], whatever slashes and [.py] occur in
    [dir]. *)
Theorem X14_short_name_of_a_py_url (dir file : string) :
  lacks Re.newline dir ->
  lacks Re.newline file ->
  lacks "/"%char file ->
  short_name_of (JStr (dir +:+ "/" +:+ file +:+ ".py")) = Ok (file +:+ ".py").
Proof.
  intros Hdir Hfile Hslash.
  apply lacks_newline in Hdir. apply lacks_newline in Hfile. unfold lacks in Hslash.
  set (A := list_ascii_of_string dir) in *. set (F := list_ascii_of_string file) in *.
  assert (Hu : list_ascii_of_string (dir +:+ "/" +:+ file +:+ ".py")
               = A ++ "/"%char :: F ++ ["."; "p"; "y"]%char).
  { rewrite !list_ascii_of_string_app. reflexivity. }
  assert (HmF : matches (Re.DotStar :: [Re.Chr "."; Re.Chr "p"; Re.Chr "y"; Re.GroupClose])
                  (F ++ ["."; "p"; "y"]%char)).
  { apply matches_inner. exists F, []. split; [reflexivity | exact Hfile]. }
  unfold short_name_of, Re.rmatch. rewrite Hu.
  destruct (Re.run Re.short_name_pattern (A ++ "/"%char :: F ++ ["."; "p"; "y"]%char) false [])
    as [g|] eqn:Hrun.
  - destruct (run_outer_items _ _ Hrun) as (a & s' & Hs & Ha & Hin & Hmax).
    pose proof (Hmax A _ eq_refl Hdir HmF) as Hlen.
    assert (Hs' : s' = F ++ ["."; "p"; "y"]%char).
    { apply app_eq_app in Hs as [l [[HA Hl]|[Ha' Hl]]].
      - destruct l as [|y l].
        + simpl in Hl. injection Hl as <-. reflexivity.
        + exfalso. rewrite HA, length_app in Hlen. simpl in Hlen. lia.
      - destruct l as [|y l].
        + simpl in Hl. injection Hl as <-. reflexivity.
        + exfalso. simpl in Hl. injection Hl as _ Hl.
          assert (Hin' : In "/"%char (F ++ ["."; "p"; "y"]%char))
            by (rewrite Hl; apply in_or_app; right; left; reflexivity).
          apply in_app_or in Hin' as [Hin'|Hin']; [contradiction|].
          simpl in Hin'. destruct Hin' as [H|[H|[H|[]]]]; discriminate. }
    subst s'.
    destruct (run_inner_items _ _ _ Hin) as (b & r & Hb & _ & -> & Hmaxb).
    pose proof (Hmaxb F [] eq_refl Hfile) as Hlenb.
    pose proof (f_equal (@length ascii) Hb) as Hl. rewrite !length_app in Hl. simpl in Hl.
    assert (Hlb : length F = length b) by lia.
    destruct (app_inj_1 _ _ _ _ Hlb Hb) as [<- _].
    simpl. rewrite string_of_list_ascii_app. unfold F.
    rewrite string_of_list_ascii_of_string. reflexivity.
  - exfalso.
    assert (Hm : matches Re.short_name_pattern (A ++ "/"%char :: F ++ ["."; "p"; "y"]%char)).
    { cbn [matches Re.short_name_pattern].
      exists A, ("/"%char :: F ++ ["."; "p"; "y"]%char). split; [reflexivity|].
      split; [exact Hdir|]. eexists. split; [reflexivity|]. exact HmF. }
    apply (run_matches _ _ false []) in Hm. rewrite Hrun in Hm.
    destruct Hm as [? ?]. discriminate.
Qed.

Lemma X14_short_name_of_a_py_url_witness :
  short_name_of (JStr ("https://host/a.py/data" +:+ "/" +:+ "hadamard" +:+ ".py"))
  = Ok ("hadamard" +:+ ".py").
Proof.
  apply (X14_short_name_of_a_py_url "https://host/a.py/data" "hadamard");
    unfold lacks; vm_compute; intuition discriminate.
Defined.

(** ** More on the execute view and on polling *)

Section ExecuteFacts.

Context `{Env : Collaborators}.


(** Whatever the request, the rows of other ids and the jobs already queued
    are left as they were. *)
Lemma execute_frame new_id rq (st : service) :
  (forall k, k <> new_id ->
     results (execute_circuit new_id rq st).1 !! k = results st !! k) /\
  exists added,
    execute_queue (execute_circuit new_id rq st).1 = execute_queue st ++ added /\
    (length added <= 1)%nat.
Proof.
  unfold execute_circuit. destruct rq as [js|]; [|split; [auto | exists []; rewrite app_nil_r; auto]].
  destruct (bad_request (Some js)); [split; [auto | exists []; rewrite app_nil_r; auto]|].
  destruct (js !! "impl-url") as [u|];
    [|split; [auto | exists []; rewrite app_nil_r; auto]].
  destruct (js !! "provider") as [pv|];
    [|split; [auto | exists []; rewrite app_nil_r; auto]].
  destruct (js !! "sdk") as [sd|];
    [|split; [auto | exists []; rewrite app_nil_r; auto]].
  destruct (js !! "qpu-name") as [q|];
    [|split; [auto | exists []; rewrite app_nil_r; auto]].
  unfold enqueue, add_and_commit. cbn [job_id results ResultModel.new ResultModel.id].
  destruct (results st !! new_id) as [old|]; cbn [fst results execute_queue logging_info].
  - split; [auto | eexists; split; [reflexivity | simpl; lia]].
  - split; [|eexists; split; [reflexivity | simpl; lia]].
    intros k Hk. apply lookup_insert_ne. congruence.
Qed.

Lemma get_result_depends_on_row result_id (st st' : service) :
  results st' !! result_id = results st !! result_id ->
  (get_result result_id st').2 = (get_result result_id st).2.
Proof.
  intros H. unfold get_result. rewrite H.
  destruct (results st !! result_id) as [r|]; [|reflexivity].
  destruct (ResultModel.complete r); [|reflexivity].
  destruct (ResultModel.result r) as [payload|]; [|reflexivity].
  destruct (json_loads payload); reflexivity.
Qed.

End ExecuteFacts.

(** X15: the two POST views reject the same requests, and a rejected
    execute request changes nothing.  The execute view aborts with 400
    exactly when the transpile view does, and whenever it does not answer
    202 for an id that has no row yet, the queue, the table and the log are
    as before. *)
Theorem X15_execute_rejects_like_transpile `{Env : Collaborators}
    (fuel : nat) (new_id : string) (rq : request_json) (st : service) :
  results st !! new_id = None ->
  ((execute_circuit new_id rq st).2 = Abort 400 <->
   (transpile_circuit fuel rq).2 = Some (Abort 400)) /\
  (http_status (execute_circuit new_id rq st).2 <> 202 ->
   (execute_circuit new_id rq st).1 = st).
Proof.
  intros Hfresh. destruct (bad_request rq) eqn:Hg.
  - rewrite (transpile_bad_request fuel rq Hg).
    assert (He : execute_circuit new_id rq st = (st, Abort 400)).
    { unfold execute_circuit. destruct rq as [js|]; [|reflexivity]. rewrite Hg. reflexivity. }
    rewrite He. split; [split; reflexivity | reflexivity].
  - split.
    + split.
      * intros He. exfalso. revert He. unfold execute_circuit.
        destruct rq as [js|]; [|discriminate]. rewrite Hg.
        destruct (js !! "impl-url"); [|discriminate].
        destruct (js !! "provider"); [|discriminate].
        destruct (js !! "sdk"); [|discriminate].
        destruct (js !! "qpu-name"); [|discriminate].
        unfold enqueue, add_and_commit.
        cbn [job_id results ResultModel.new ResultModel.id]. rewrite Hfresh. discriminate.
      * intros Ht. exfalso.
        destruct (transpile_past_guard fuel rq _ Hg Ht) as [H|[H|H]]; discriminate.
    + unfold execute_circuit. destruct rq as [js|]; [|reflexivity]. rewrite Hg.
      destruct (js !! "impl-url"); [|reflexivity].
      destruct (js !! "provider"); [|reflexivity].
      destruct (js !! "sdk"); [|reflexivity].
      destruct (js !! "qpu-name"); [|reflexivity].
      unfold enqueue, add_and_commit.
      cbn [job_id results ResultModel.new ResultModel.id]. rewrite Hfresh.
      intros H. exfalso. apply H. reflexivity.
Qed.

Lemma X15_execute_rejects_like_transpile_witness :
  (execute_circuit (Env := Stub.env_ok) "7c1d" (Some Stub.request_impl_data)
     Stub.dummy_service).1 = Stub.dummy_service.
Proof.
  refine (proj2 (X15_execute_rejects_like_transpile (Env := Stub.env_ok) 5 "7c1d"
           (Some Stub.request_impl_data) Stub.dummy_service eq_refl) _).
  vm_compute. discriminate.
Defined.

(** X16: the execute view touches nothing but its own job.  Whatever the
    request and whatever the id, the rows of all other ids are unchanged,
    the jobs already queued stay in place and at most one job is appended,
    and a poll of any other id gives the answer it gave before. *)
Theorem X16_execute_leaves_other_jobs_alone `{Env : Collaborators}
    (new_id : string) (rq : request_json) (st : service) :
  (forall k, k <> new_id ->
     results (execute_circuit new_id rq st).1 !! k = results st !! k) /\
  (exists added,
     execute_queue (execute_circuit new_id rq st).1 = execute_queue st ++ added /\
     (length added <= 1)%nat) /\
  (forall k, k <> new_id ->
     (get_result k (execute_circuit new_id rq st).1).2 = (get_result k st).2).
Proof.
  destruct (execute_frame new_id rq st) as [Hrows Hq].
  split; [exact Hrows|]. split; [exact Hq|].
  intros k Hk. apply get_result_depends_on_row. apply Hrows. exact Hk.
Qed.

Lemma X16_execute_leaves_other_jobs_alone_witness :
  (get_result (Env := Stub.env_ok) "1"
     (execute_circuit (Env := Stub.env_ok) "7c1d" (Some (Stub.request Stub.url_hadamard))
        Stub.dummy_service).1).2
  = (get_result (Env := Stub.env_ok) "1" Stub.dummy_service).2.
Proof.
  refine (proj2 (proj2 (X16_execute_leaves_other_jobs_alone (Env := Stub.env_ok) "7c1d"
           (Some (Stub.request Stub.url_hadamard)) Stub.dummy_service)) "1" _).
  discriminate.
Defined.

(** X17: rows stay under their own ids.  If every row of the table sits
    under the id it carries, the same holds after the execute view has run,
    and then a poll of an id that answers with a body answers with that
    very id in its [id] field. *)
Theorem X17_rows_keep_their_ids `{Env : Collaborators}
    (new_id : string) (rq : request_json) (st : service) :
  keyed_by_id st ->
  keyed_by_id (execute_circuit new_id rq st).1 /\
  (forall k resp,
     (get_result k st).2 = Respond resp ->
     exists rest, body resp = JObj (("id", JStr k) :: rest)).
Proof.
  intros Hkeyed. split.
  - intros k r. destruct (decide (k = new_id)) as [->|Hne].
    + unfold execute_circuit. destruct rq as [js|]; [|apply Hkeyed].
      destruct (bad_request (Some js)); [apply Hkeyed|].
      destruct (js !! "impl-url"); [|apply Hkeyed].
      destruct (js !! "provider"); [|apply Hkeyed].
      destruct (js !! "sdk"); [|apply Hkeyed].
      destruct (js !! "qpu-name"); [|apply Hkeyed].
      unfold enqueue, add_and_commit.
      cbn [job_id results ResultModel.new ResultModel.id].
      destruct (results st !! new_id) as [old|] eqn:Hold;
        cbn [fst results logging_info].
      * rewrite Hold. intros [= <-]. apply (Hkeyed _ _ Hold).
      * rewrite lookup_insert_eq. intros [= <-]. reflexivity.
    + destruct (execute_frame new_id rq st) as [Hrows _].
      rewrite (Hrows k Hne). apply Hkeyed.
  - intros k resp. unfold get_result.
    destruct (results st !! k) as [r|] eqn:Hr; [|discriminate].
    rewrite <- (Hkeyed _ _ Hr).
    destruct (ResultModel.complete r).
    + destruct (ResultModel.result r) as [payload|]; [|discriminate].
      destruct (json_loads payload); [|discriminate].
      intros [= <-]. eexists. reflexivity.
    + intros [= <-]. eexists. reflexivity.
Qed.

Lemma X17_rows_keep_their_ids_witness :
  keyed_by_id (Env := Stub.env_ok)
    (execute_circuit (Env := Stub.env_ok) "7c1d" (Some (Stub.request Stub.url_hadamard))
       Stub.empty_service).1.
Proof.
  refine (proj1 (X17_rows_keep_their_ids (Env := Stub.env_ok) "7c1d"
           (Some (Stub.request Stub.url_hadamard)) Stub.empty_service _)).
  intros k r Hr. vm_compute in Hr. discriminate.
Defined.

(** X18: what a poll answers, row by row.  For an id that has a row: an
    incomplete row is answered [{id, complete: false}] whatever its payload
    column holds, the payload is not parsed; a complete row whose payload
    does not parse, or is missing, ends in an uncaught exception (status
    500); and the answer carries a [result] field exactly when the row is
    complete and its payload parses, the field being the parsed payload. *)
Theorem X18_poll_answer_by_row `{Env : Collaborators}
    (result_id : string) (st : service) (r : ResultModel.Result) :
  results st !! result_id = Some r ->
  (ResultModel.complete r = false ->
   get_result result_id st =
     (st, Respond (jsonify [("id", JStr (ResultModel.id r)); ("complete", JBool false)] 200))) /\
  (ResultModel.complete r = true ->
   forall payload e,
     ResultModel.result r = Some payload -> json_loads payload = Raise e ->
     get_result result_id st = (st, Unhandled e) /\ http_status (Unhandled e) = 500) /\
  (ResultModel.complete r = true -> ResultModel.result r = None ->
   exists msg, get_result result_id st = (st, Unhandled (TypeError msg))) /\
  (forall parsed,
     (exists resp fields,
        (get_result result_id st).2 = Respond resp /\
        body resp = JObj fields /\
        field "result" fields = Some parsed) <->
     (ResultModel.complete r = true /\
      exists payload,
        ResultModel.result r = Some payload /\ json_loads payload = Ok parsed)).
Proof.
  intros Hr. unfold get_result. rewrite Hr.
  split; [|split; [|split; [|intros parsed; split]]].
  - intros ->. reflexivity.
  - intros Hc payload e Hp Hj. rewrite Hc, Hp, Hj. split; reflexivity.
  - intros -> ->. eexists. reflexivity.
  - intros (resp & fields & Hresp & Hbody & Hfield).
    destruct (ResultModel.complete r); [|injection Hresp as <-; simpl in Hbody;
      injection Hbody as <-; discriminate].
    split; [reflexivity|].
    destruct (ResultModel.result r) as [payload|]; [|discriminate].
    exists payload. split; [reflexivity|].
    destruct (json_loads payload) as [d|e]; [|discriminate].
    injection Hresp as <-. simpl in Hbody. injection Hbody as <-.
    simpl in Hfield. injection Hfield as <-. reflexivity.
  - intros (Hc & payload & Hp & Hj). rewrite Hc, Hp, Hj.
    eexists _, _. split; [reflexivity|]. split; reflexivity.
Qed.

Lemma X18_poll_answer_by_row_witness :
  get_result (Env := Stub.env_ok) "0" Stub.dummy_service =
    (Stub.dummy_service,
     Respond (jsonify [("id", JStr "0"); ("complete", JBool false)] 200)).
Proof.
  exact (proj1 (X18_poll_answer_by_row (Env := Stub.env_ok) "0" Stub.dummy_service
                  (ResultModel.new "0") eq_refl) eq_refl).
Defined.



(** ** The guard on any body *)

Lemma request_guard_dict (fields : list (string * json)) :
  request_guard (Some (JObj fields)) = Ok (bad_request (Some (body_dict fields))).
Proof.
  unfold request_guard, bad_request, truthy, py_in.
  destruct (is_empty_dict (body_dict fields)); [reflexivity|].
  destruct (has_key "impl-url" (body_dict fields)); [|reflexivity].
  destruct (has_key "qpu-name" (body_dict fields)); reflexivity.
Qed.

Lemma non_dict_outcome_400 (v : json) :
  http_status (non_dict_outcome v) = 400 <-> request_guard (Some v) = Ok true.
Proof.
  unfold non_dict_outcome.
  destruct (request_guard (Some v)) as [[|]|e].
  - split; reflexivity.
  - split; [destruct v; discriminate | discriminate].
  - split; discriminate.
Qed.

Lemma execute_past_guard `{Env : Collaborators} new_id rq (st : service) :
  bad_request rq = false -> (execute_circuit new_id rq st).2 <> Abort 400.
Proof.
  intros Hg. unfold execute_circuit. destruct rq as [js|]; [|discriminate].
  rewrite Hg.
  destruct (js !! "impl-url"); [|discriminate].
  destruct (js !! "provider"); [|discriminate].
  destruct (js !! "sdk"); [|discriminate].
  destruct (js !! "qpu-name"); [|discriminate].
  unfold enqueue, add_and_commit. cbn [job_id results ResultModel.new ResultModel.id].
  destruct (results st !! new_id); discriminate.
Qed.

(** X21: on a body of any JSON type, both POST views answer 400 exactly
    when the guard of lines 36-37 and 118-119 rejects: no body, a falsy
    body, or a body in which [impl-url] or [qpu-name] is not found (as a
    key of an object, as a substring of a string, as an element of a list).
    A body that is not an object and is not rejected ends both views in an
    uncaught [TypeError], status 500, before anything is called or
    changed. *)
Theorem X21_400_exactly_when_the_guard_rejects `{Env : Collaborators}
    (fuel : nat) (new_id : string) (body : option json) (st : service) :
  ((exists o, (transpile_request fuel body).2 = Some o /\ http_status o = 400) <->
   request_guard body = Ok true) /\
  ((execute_request new_id body st).2 = Abort 400 <-> request_guard body = Ok true) /\
  (forall v,
      body = Some v ->
      (forall fields, v <> JObj fields) ->
      request_guard body <> Ok true ->
      exists msg,
        transpile_request fuel body = ([], Some (Unhandled (TypeError msg))) /\
        execute_request new_id body st = (st, Unhandled (TypeError msg)) /\
        http_status (Unhandled (TypeError msg)) = 500).
Proof.
  assert (Hdict_t : forall rq,
    (exists o, (transpile_circuit fuel rq).2 = Some o /\ http_status o = 400) <->
    Ok (A := bool) (bad_request rq) = Ok true).
  { intros rq. destruct (bad_request rq) eqn:Hg.
    - rewrite (transpile_bad_request fuel rq Hg). split; [reflexivity|].
      intros _. exists (Abort 400). split; reflexivity.
    - split; [|discriminate]. intros (o & Ho & Hs). exfalso.
      destruct (transpile_past_guard fuel rq o Hg Ho) as [H|[H|H]]; rewrite H in Hs;
        discriminate. }
  assert (Hdict_e : forall rq,
    (execute_circuit new_id rq st).2 = Abort 400 <->
    Ok (A := bool) (bad_request rq) = Ok true).
  { intros rq. destruct (bad_request rq) eqn:Hg.
    - split; [reflexivity|]. intros _. unfold execute_circuit.
      destruct rq as [js|]; [|reflexivity]. rewrite Hg. reflexivity.
    - split; [|discriminate]. intros H. exfalso.
      exact (execute_past_guard new_id rq st Hg H). }
  split; [|split].
  - destruct body as [v|]; [|apply (Hdict_t None)].
    destruct v as [| | | | |fields];
      try (cbn [transpile_request snd]; rewrite <- non_dict_outcome_400;
           split; [intros (o & [= <-] & Hs); exact Hs | intros Hs; eauto]).
    cbn [transpile_request]. rewrite request_guard_dict. apply Hdict_t.
  - destruct body as [v|]; [|apply (Hdict_e None)].
    destruct v as [| | | | |fields];
      try (cbn [execute_request snd]; rewrite <- non_dict_outcome_400;
           split; [intros ->; reflexivity|];
           unfold non_dict_outcome;
           match goal with
           | |- context [request_guard ?b] =>
               destruct (request_guard b) as [[|]|e]; try discriminate; reflexivity
           end).
    cbn [execute_request]. rewrite request_guard_dict. apply Hdict_e.
  - intros v -> Hnd Hg. unfold transpile_request, execute_request, non_dict_outcome.
    destruct (request_guard (Some v)) as [[|]|e] eqn:Hrg.
    + congruence.
    + destruct v as [| | |s|items|fields];
        try (eexists; split; [reflexivity | split; reflexivity]).
      exfalso. apply (Hnd fields). reflexivity.
    + assert (He : exists msg, e = TypeError msg).
      { unfold request_guard in Hrg. destruct (negb (truthy v)); [discriminate|].
        destruct v as [|b|n|s|items|fields]; simpl in Hrg;
          try (injection Hrg as <-; eauto).
        - destruct (contains "impl-url" s); discriminate.
        - destruct (existsb (is_str "impl-url") items); discriminate.
        - destruct (has_key "impl-url" (body_dict fields)); discriminate. }
      destruct He as [msg ->].
      destruct v as [| | |s|items|fields];
        try (eexists; split; [reflexivity | split; reflexivity]).
      exfalso. apply (Hnd fields). reflexivity.
Qed.

(** A body that is a string naming both fields passes the guard, and the
    subscript of line 39 raises. *)
Lemma X21_400_exactly_when_the_guard_rejects_witness :
  exists msg,
    transpile_request (Env := Stub.env_ok) 5 (Some (JStr "impl-url qpu-name"))
      = ([], Some (Unhandled (TypeError msg))) /\
    execute_request (Env := Stub.env_ok) "7c1d" (Some (JStr "impl-url qpu-name"))
      Stub.dummy_service
      = (Stub.dummy_service, Unhandled (TypeError msg)) /\
    http_status (Unhandled (TypeError msg)) = 500.
Proof.
  refine (proj2 (proj2 (X21_400_exactly_when_the_guard_rejects (Env := Stub.env_ok) 5 "7c1d"
           (Some (JStr "impl-url qpu-name")) Stub.dummy_service))
           (JStr "impl-url qpu-name") eq_refl _ _).
  - intros fields. discriminate.
  - vm_compute. discriminate.
Defined.
